(** * chatty-buddy: the voice-chat pipeline of the Fastify server

    A shallow embedding of [server/src/index.ts]: the three collaborator
    calls ([transcribeAudio], [generateLLMResponse], [synthesizeSpeech]) and
    the [POST /api/chat] handler that chains them, followed by the
    properties of the request pipeline.

    Conventions of the embedding.
    - A JavaScript string is the list of its UTF-16 code units.
    - A [Buffer] is a list of bytes.
    - [async] code is sequential from the point of view of one request, so
      it is written in a state-and-exception monad: the state records what
      one request can observe or cause (clock readings taken, outbound
      [fetch] calls, log lines, the reply's status code), the exception is
      the JavaScript value thrown.
    - Everything outside the process (the clock, the network, the
      multipart plugin) is a [World]/[Request] the handler is run against. *)

From Stdlib Require Import List NArith ZArith Bool Ascii String Lia.
From Stdlib.Strings Require Import Byte.
Import ListNotations.

Local Open Scope Z_scope.
Set Warnings "-register-all".

(* ===================================================================== *)
(** ** JavaScript strings *)
(* ===================================================================== *)

Module Js.

(** UTF-16 code units. *)
Definition jsstring : Type := list N.

(** An ASCII literal of the source, as code units. *)
Definition lit (s : string) : jsstring :=
  map N_of_ascii (list_ascii_of_string s).

(** [a === b] on strings. *)
Fixpoint jsstring_eqb (a b : jsstring) : bool :=
  match a, b with
  | [], [] => true
  | x :: a', y :: b' => (x =? y)%N && jsstring_eqb a' b'
  | _, _ => false
  end.

(** ECMAScript WhiteSpace and LineTerminator code points, the set
    [String.prototype.trim] strips.  All of them lie in the BMP, so the
    test is on one code unit. *)
Definition isWhiteSpace (c : N) : bool :=
  ((c =? 0x0009) || (c =? 0x000A) || (c =? 0x000B) || (c =? 0x000C) ||
   (c =? 0x000D) || (c =? 0x0020) || (c =? 0x00A0) || (c =? 0x1680) ||
   ((0x2000 <=? c) && (c <=? 0x200A)) ||
   (c =? 0x2028) || (c =? 0x2029) || (c =? 0x202F) || (c =? 0x205F) ||
   (c =? 0x3000) || (c =? 0xFEFF))%N.

Fixpoint trimStart (s : jsstring) : jsstring :=
  match s with
  | [] => []
  | c :: r => if isWhiteSpace c then trimStart r else s
  end.

Definition trimEnd (s : jsstring) : jsstring := rev (trimStart (rev s)).

(** [s.trim()] *)
Definition trim (s : jsstring) : jsstring := trimEnd (trimStart s).

(** [s.substring(0, n)] for a non-negative [n]: code units, not characters. *)
Definition substring0 (n : nat) (s : jsstring) : jsstring := firstn n s.

(** Truthiness of a string: only the empty string is falsy. *)
Definition truthy (s : jsstring) : bool :=
  match s with [] => false | _ :: _ => true end.

(** [a || b] on a value that is [undefined] or a string. *)
Definition or_default (a : option jsstring) (b : jsstring) : jsstring :=
  match a with
  | Some s => if truthy s then s else b
  | None => b
  end.

End Js.
Import Js.

Arguments lit : simpl never.

(* ===================================================================== *)
(** ** JSON values *)
(* ===================================================================== *)

(** What [response.json()] can produce and what the handler returns.  An
    object is the list of its own properties; of two bindings of one name
    the first is the object's.  The payload of a number is never looked at
    by the server. *)
Inductive JsValue : Type :=
| JUndefined
| JNull
| JBool (b : bool)
| JNum (n : Z)
| JStr (s : jsstring)
| JArr (items : list JsValue)
| JObj (fields : list (jsstring * JsValue)).

Fixpoint lookup (k : jsstring) (fs : list (jsstring * JsValue)) : option JsValue :=
  match fs with
  | [] => None
  | (k', v) :: r => if jsstring_eqb k k' then Some v else lookup k r
  end.

Definition has_key (k : jsstring) (fs : list (jsstring * JsValue)) : bool :=
  match lookup k fs with Some _ => true | None => false end.

(** Faults the engine raises by itself. *)
Inductive EngineFault : Type :=
| NullishAccess (member : jsstring)   (* reading a property of null/undefined *)
| NotAFunction (member : jsstring)    (* calling a member that is no function *)
| NoPrimitive.                        (* an object that converts to no string *)

(** Thrown values.  [Error m] is [new Error(m)] of the server's own code;
    [TypeError f] is raised by the engine; [Thrown name m] is an error
    raised by a library (fetch, the body readers, the multipart plugin). *)
Inductive JsError : Type :=
| Error (message : jsstring)
| TypeError (fault : EngineFault)
| Thrown (name message : jsstring).

(** [data.k] (property read).  A JSON value has no inherited property
    called [text] or [response]; reading from null or undefined throws. *)
Definition member (k : jsstring) (data : JsValue) : JsError + JsValue :=
  match data with
  | JUndefined | JNull => inl (TypeError (NullishAccess k))
  | JObj fs => inr (match lookup k fs with Some v => v | None => JUndefined end)
  | _ => inr JUndefined
  end.

(** Whether [`${v}`] yields a string.  An object parsed from JSON has no
    callable property of its own, so an own [toString] hides the inherited
    one and the conversion throws; an array joins its items, where null and
    undefined items are skipped. *)
Fixpoint stringifiable (v : JsValue) : bool :=
  match v with
  | JObj fs => negb (has_key (lit "toString") fs)
  | JArr items =>
      forallb (fun i => match i with
                        | JUndefined | JNull => true
                        | _ => stringifiable i
                        end) items
  | _ => true
  end.

(* ===================================================================== *)
(** ** Buffers and base64 *)
(* ===================================================================== *)

Definition Buffer : Type := list byte.

Module Base64.

Local Open Scope N_scope.

(** The alphabet of RFC 4648, section 4: index to code unit. *)
Definition alphabet (i : N) : N :=
  if i <? 26 then 65 + i
  else if i <? 52 then 97 + (i - 26)
  else if i <? 62 then 48 + (i - 52)
  else if i =? 62 then 43
  else 47.

Definition pad : N := 61.

(** [buf.toString("base64")]: three bytes give four characters, a tail of
    one or two bytes is padded with [=]. *)
Fixpoint encode (bs : list byte) : jsstring :=
  match bs with
  | [] => []
  | [a] =>
      let a := Byte.to_N a in
      [alphabet (N.shiftr a 2); alphabet (N.shiftl (N.land a 3) 4); pad; pad]
  | [a; b] =>
      let a := Byte.to_N a in
      let b := Byte.to_N b in
      [alphabet (N.shiftr a 2);
       alphabet (N.lor (N.shiftl (N.land a 3) 4) (N.shiftr b 4));
       alphabet (N.shiftl (N.land b 15) 2); pad]
  | a :: b :: c :: r =>
      let a := Byte.to_N a in
      let b := Byte.to_N b in
      let c := Byte.to_N c in
      alphabet (N.shiftr a 2)
      :: alphabet (N.lor (N.shiftl (N.land a 3) 4) (N.shiftr b 4))
      :: alphabet (N.lor (N.shiftl (N.land b 15) 2) (N.shiftr c 6))
      :: alphabet (N.land c 63)
      :: encode r
  end.

(** Code unit to index, the inverse of [alphabet]. *)
Definition sextet (c : N) : option N :=
  if (65 <=? c) && (c <=? 90) then Some (c - 65)
  else if (97 <=? c) && (c <=? 122) then Some (c - 97 + 26)
  else if (48 <=? c) && (c <=? 57) then Some (c - 48 + 52)
  else if c =? 43 then Some 62
  else if c =? 47 then Some 63
  else None.

Definition byte_of (n : N) : byte :=
  match Byte.of_N (n mod 256) with Some b => b | None => x00 end.

(** Decoding of padded base64 text, used to state that [encode] loses
    nothing. *)
Fixpoint decode (s : jsstring) : option (list byte) :=
  match s with
  | [] => Some []
  | c1 :: c2 :: c3 :: c4 :: r =>
      match sextet c1, sextet c2 with
      | Some s1, Some s2 =>
          let b1 := byte_of (N.lor (N.shiftl s1 2) (N.shiftr s2 4)) in
          if c3 =? pad then
            if (c4 =? pad) && (match r with [] => true | _ => false end)
            then Some [b1] else None
          else
            match sextet c3 with
            | Some s3 =>
                let b2 := byte_of (N.lor (N.shiftl (N.land s2 15) 4) (N.shiftr s3 2)) in
                if c4 =? pad then
                  match r with [] => Some [b1; b2] | _ => None end
                else
                  match sextet c4, decode r with
                  | Some s4, Some rest =>
                      Some (b1 :: b2
                            :: byte_of (N.lor (N.shiftl (N.land s3 3) 6) s4)
                            :: rest)
                  | _, _ => None
                  end
            | None => None
            end
      | _, _ => None
      end
  | _ => None
  end.

(** Checks by enumeration, for the proof that [decode] undoes [encode]. *)

(** The numbers below [k]. *)
Definition below (k : nat) : list N := map N.of_nat (seq 0 k).

(** What one byte alone fixes: the outer sextets are in range, a byte is
    put together again from its two parts, and so is the padded tail. *)
Definition one_byte_ok (a : N) : bool :=
  (N.shiftr a 2 <? 64) && (N.land a 63 <? 64)
  && (N.lor (N.shiftl (N.shiftr a 2) 2) (N.land a 3) =? a)
  && (N.lor (N.shiftl (N.shiftr a 4) 4) (N.land a 15) =? a)
  && (N.lor (N.shiftl (N.shiftr a 6) 6) (N.land a 63) =? a)
  && (N.shiftl (N.land a 3) 4 <? 64)
  && (N.shiftr (N.shiftl (N.land a 3) 4) 4 =? N.land a 3)
  && (N.shiftl (N.land a 15) 2 <? 64)
  && (N.shiftr (N.shiftl (N.land a 15) 2) 2 =? N.land a 15).

(** What two neighbouring bytes fix: the sextets that straddle them. *)
Definition two_bytes_ok (a b : N) : bool :=
  let s2 := N.lor (N.shiftl (N.land a 3) 4) (N.shiftr b 4) in
  let s3 := N.lor (N.shiftl (N.land a 15) 2) (N.shiftr b 6) in
  (s2 <? 64) && (N.shiftr s2 4 =? N.land a 3) && (N.land s2 15 =? N.shiftr b 4)
  && (s3 <? 64) && (N.shiftr s3 2 =? N.land a 15) && (N.land s3 3 =? N.shiftr b 6).

End Base64.

(* ===================================================================== *)
(** ** The outside world *)
(* ===================================================================== *)

(** *** Inbound: what the multipart plugin hands to the handler *)

(** The object [request.file()] resolves to.  [filename] is absent when
    the part carries none; [toBuffer] is the outcome of [data.toBuffer()]
    (the plugin rejects, for one, a file over the configured size). *)
Record MultipartFile : Type := {
  filename : option jsstring;
  toBuffer : JsError + Buffer
}.

(** One [POST /api/chat] request, as far as the handler looks at it:
    the outcome of [request.file()], which is [undefined] ([None]) when
    the body has no file part. *)
Record Request : Type := {
  file : JsError + option MultipartFile
}.

(** *** Outbound: [fetch] *)

Record FormPart : Type := {
  part_name : jsstring;
  part_blob : Buffer;
  part_filename : jsstring
}.

(** A request body: a [FormData], or the text [JSON.stringify(v)], kept as
    the value [v] it serialises. *)
Inductive Body : Type :=
| FormData (parts : list FormPart)
| JSONText (v : JsValue).

Record FetchRequest : Type := {
  url : jsstring;
  method : jsstring;
  headers : list (jsstring * jsstring);
  body : Body
}.

(** A response and the three ways the server reads a body.  Each reader
    can reject (a body that is no JSON, a connection lost half-way). *)
Record Response : Type := {
  status : Z;
  text : JsError + jsstring;
  json : JsError + JsValue;
  arrayBuffer : JsError + Buffer
}.

(** [response.ok] *)
Definition ok (r : Response) : bool :=
  (200 <=? status r) && (status r <=? 299).

(** [fetch] rejects when the collaborator cannot be reached (connection
    refused, timeout) and resolves with the response otherwise, whatever
    its status. *)
Inductive FetchOutcome : Type :=
| Rejects (e : JsError)
| Resolves (r : Response).

(** The environment of one request: [now k] is the value of the [k]-th
    call of [Date.now()], [network] answers an outbound request. *)
Record World : Type := {
  now : nat -> Z;
  network : FetchRequest -> FetchOutcome
}.

(* ===================================================================== *)
(** ** Configuration *)
(* ===================================================================== *)

Record Config : Type := {
  STT_SERVICE_URL : jsstring;
  LLM_SERVICE_URL : jsstring;
  TTS_SERVICE_URL : jsstring;
  LLM_MODEL : jsstring
}.

(** [process.env.X || "default"], read once when the module is loaded. *)
Definition load_config (env : jsstring -> option jsstring) : Config := {|
  STT_SERVICE_URL :=
    or_default (env (lit "STT_SERVICE_URL")) (lit "http://localhost:8001");
  LLM_SERVICE_URL :=
    or_default (env (lit "LLM_SERVICE_URL")) (lit "http://localhost:11434");
  TTS_SERVICE_URL :=
    or_default (env (lit "TTS_SERVICE_URL")) (lit "http://localhost:8002");
  LLM_MODEL := or_default (env (lit "LLM_MODEL")) (lit "gemma3:4b")
|}.

Definition SYSTEM_PROMPT : jsstring :=
  lit "You are a friendly and helpful voice assistant. Keep your responses concise and conversational, as they will be spoken aloud. Aim for 1-3 sentences unless the user asks for more detail. Avoid using markdown, bullet points, or special formatting since your response will be converted to speech. Be natural and engaging.".

(* ===================================================================== *)
(** ** The handler's monad *)
(* ===================================================================== *)

(** One line of [fastify.log]; a constructor stands for the template
    string of the source and keeps the values interpolated into it. *)
Inductive LogLine : Type :=
| LogReceived (name : jsstring) (bytes : nat)
| LogTranscribing
| LogTranscribed (ms : Z) (transcription : JsValue)
| LogGenerating
| LogGenerated (ms : Z) (head : jsstring)
| LogSynthesizing
| LogSynthesized (ms : Z) (bytes : nat)
| LogTotal (ms : Z)
| LogError (e : JsError).

(** What is seen from outside while a request runs: the [k]-th reading of
    the clock, or an outbound call. *)
Inductive Event : Type :=
| Clock (k : nat)
| Sent (rq : FetchRequest).

(** What one request has done so far. *)
Record State : Type := {
  ticks : nat;                  (* calls of Date.now() *)
  calls : list FetchRequest;    (* outbound calls, oldest first *)
  log : list LogLine;           (* log lines, oldest first *)
  statusCode : Z;               (* reply.statusCode *)
  events : list Event           (* clock readings and outbound calls, in
                                   the order they were made *)
}.

Definition init : State :=
  {| ticks := 0; calls := []; log := []; statusCode := 200; events := [] |}.

Definition M (A : Type) : Type := State -> (JsError + A) * State.

Definition ret {A} (a : A) : M A := fun s => (inr a, s).

Definition bind {A B} (c : M A) (k : A -> M B) : M B :=
  fun s =>
    match c s with
    | (inl e, s') => (inl e, s')
    | (inr a, s') => k a s'
    end.

Definition throw {A} (e : JsError) : M A := fun s => (inl e, s).

(** [try { c } catch (error) { h error }] *)
Definition try_catch {A} (c : M A) (h : JsError -> M A) : M A :=
  fun s =>
    match c s with
    | (inl e, s') => h e s'
    | (inr a, s') => (inr a, s')
    end.

(** [await p] for a promise that is already settled one way or the other. *)
Definition await {A} (p : JsError + A) : M A :=
  match p with inl e => throw e | inr a => ret a end.

Declare Scope js_scope.
Delimit Scope js_scope with js.
Notation "x <- c ;; k" := (bind c (fun x => k))
  (at level 100, c at next level, right associativity) : js_scope.
Notation "c ;; k" := (bind c (fun _ => k))
  (at level 100, right associativity) : js_scope.
Local Open Scope js_scope.

Definition log_info (l : LogLine) : M unit :=
  fun s => (inr tt, {| ticks := ticks s; calls := calls s;
                       log := log s ++ [l]; statusCode := statusCode s;
                       events := events s |}).

(** [fastify.log.error(error, "Chat pipeline error")] *)
Definition log_error (e : JsError) : M unit := log_info (LogError e).

(** [reply.code(n)] *)
Definition reply_code (n : Z) : M unit :=
  fun s => (inr tt, {| ticks := ticks s; calls := calls s;
                       log := log s; statusCode := n;
                       events := events s |}).

(** [v.trim()] *)
Definition call_trim (v : JsValue) : JsError + jsstring :=
  match v with
  | JStr s => inr (trim s)
  | JUndefined | JNull => inl (TypeError (NullishAccess (lit "trim")))
  | _ => inl (TypeError (NotAFunction (lit "trim")))
  end.

(** [v.substring(0, n)] *)
Definition call_substring0 (n : nat) (v : JsValue) : JsError + jsstring :=
  match v with
  | JStr s => inr (substring0 n s)
  | JUndefined | JNull => inl (TypeError (NullishAccess (lit "substring")))
  | _ => inl (TypeError (NotAFunction (lit "substring")))
  end.

(** The string conversion of a value interpolated into a template. *)
Definition interpolate (v : JsValue) : JsError + unit :=
  if stringifiable v then inr tt else inl (TypeError NoPrimitive).

(* ===================================================================== *)
(** ** The server *)
(* ===================================================================== *)

Section Server.

Variable cfg : Config.
Variable w : World.

(** [Date.now()] *)
Definition Date_now : M Z :=
  fun s => (inr (now w (ticks s)),
            {| ticks := S (ticks s); calls := calls s;
               log := log s; statusCode := statusCode s;
               events := events s ++ [Clock (ticks s)] |}).

(** [await fetch(url, init)]: the call is made, then it settles. *)
Definition fetch (rq : FetchRequest) : M Response :=
  fun s =>
    let s' := {| ticks := ticks s; calls := calls s ++ [rq];
                 log := log s; statusCode := statusCode s;
                 events := events s ++ [Sent rq] |} in
    match network w rq with
    | Rejects e => (inl e, s')
    | Resolves r => (inr r, s')
    end.

(** The three outbound requests, each the pair of arguments its function
    gives to [fetch]: the URL and the [init] object. *)

(** [formData.append("audio", new Blob([...audioBuffer]), filename)], posted
    to [`${STT_SERVICE_URL}/transcribe`]; no header is set by the source. *)
Definition stt_request (audioBuffer : Buffer) (filename : jsstring)
  : FetchRequest :=
  {| url := STT_SERVICE_URL cfg ++ lit "/transcribe";
     method := lit "POST";
     headers := [];
     body := FormData [{| part_name := lit "audio";
                          part_blob := audioBuffer;
                          part_filename := filename |}] |}.

Definition llm_request (userMessage : JsValue) : FetchRequest :=
  {| url := LLM_SERVICE_URL cfg ++ lit "/api/generate";
     method := lit "POST";
     headers := [(lit "Content-Type", lit "application/json")];
     body := JSONText (JObj [(lit "model", JStr (LLM_MODEL cfg));
                             (lit "prompt", userMessage);
                             (lit "system", JStr SYSTEM_PROMPT);
                             (lit "stream", JBool false)]) |}.

Definition tts_request (text_ : JsValue) : FetchRequest :=
  {| url := TTS_SERVICE_URL cfg ++ lit "/synthesize";
     method := lit "POST";
     headers := [(lit "Content-Type", lit "application/json")];
     body := JSONText (JObj [(lit "text", text_)]) |}.

(** Transcribe audio using the STT service.  The source declares the
    result a string, but [data.text] is whatever the JSON holds. *)
Definition transcribeAudio (audioBuffer : Buffer) (filename : jsstring)
  : M JsValue :=
  response <- fetch (stt_request audioBuffer filename) ;;
  if negb (ok response) then
    error <- await (text response) ;;
    throw (Error (lit "STT service error: " ++ error))
  else
    data <- await (json response) ;;
    await (member (lit "text") data).

(** Generate a response using Ollama LLM. *)
Definition generateLLMResponse (userMessage : JsValue) : M JsValue :=
  response <- fetch (llm_request userMessage) ;;
  if negb (ok response) then
    error <- await (text response) ;;
    throw (Error (lit "LLM service error: " ++ error))
  else
    data <- await (json response) ;;
    await (member (lit "response") data).

(** Synthesize speech using the TTS service. *)
Definition synthesizeSpeech (text_ : JsValue) : M Buffer :=
  response <- fetch (tts_request text_) ;;
  if negb (ok response) then
    error <- await (text response) ;;
    throw (Error (lit "TTS service error: " ++ error))
  else
    await (arrayBuffer response).

(** The body of the [try] block of the handler. *)
Definition pipeline (startTime : Z) (audioBuffer : Buffer)
  (filename : jsstring) : M JsValue :=
  (* Step 1: Transcribe audio *)
  log_info LogTranscribing ;;
  transcriptionStart <- Date_now ;;
  transcription <- transcribeAudio audioBuffer filename ;;
  t1 <- Date_now ;;
  await (interpolate transcription) ;;
  log_info (LogTranscribed (t1 - transcriptionStart) transcription) ;;
  trimmed <- await (call_trim transcription) ;;
  (if negb (truthy trimmed) then
     reply_code 400 ;;
     throw (Error (lit "Could not transcribe audio - no speech detected"))
   else ret tt) ;;
  (* Step 2: Generate LLM response *)
  log_info LogGenerating ;;
  llmStart <- Date_now ;;
  llmResponse <- generateLLMResponse transcription ;;
  t2 <- Date_now ;;
  head <- await (call_substring0 100 llmResponse) ;;
  log_info (LogGenerated (t2 - llmStart) head) ;;
  (* Step 3: Synthesize speech *)
  log_info LogSynthesizing ;;
  ttsStart <- Date_now ;;
  audioResponse <- synthesizeSpeech llmResponse ;;
  t3 <- Date_now ;;
  log_info (LogSynthesized (t3 - ttsStart) (List.length audioResponse)) ;;
  (* Convert audio to base64 for JSON response *)
  let audioBase64 := Base64.encode audioResponse in
  t4 <- Date_now ;;
  let totalTime := t4 - startTime in
  log_info (LogTotal totalTime) ;;
  ret (JObj [(lit "transcription", transcription);
             (lit "response", llmResponse);
             (lit "audioBase64", JStr audioBase64)]).

(** [fastify.post("/api/chat", async (request, reply) => ...)]: the value
    returned is the reply's body, a thrown error goes to the framework
    together with the status code left in the state. *)
Definition chat_handler (request : Request) : M JsValue :=
  startTime <- Date_now ;;
  (* Get the uploaded audio file *)
  data <- await (file request) ;;
  match data with
  | None =>
      reply_code 400 ;;
      throw (Error (lit "No audio file provided"))
  | Some data =>
      audioBuffer <- await (toBuffer data) ;;
      let filename := or_default (filename data) (lit "audio.webm") in
      log_info (LogReceived filename (List.length audioBuffer)) ;;
      try_catch (pipeline startTime audioBuffer filename)
        (fun error => log_error error ;; throw error)
  end.

End Server.

(** The handler run on a fresh request. *)
Definition run (cfg : Config) (w : World) (request : Request)
  : (JsError + JsValue) * State :=
  chat_handler cfg w request init.

(* ===================================================================== *)
(** ** A concrete world: the scenario of the specification *)
(* ===================================================================== *)

Module Scenario.

(** No environment variable is set: every default applies. *)
Definition cfg : Config := load_config (fun _ => None).

(** A reader the scenario never uses. *)
Definition unread {A} : JsError + A :=
  inl (Thrown (lit "TypeError") (lit "Body is unusable")).

Definition json_reply (v : JsValue) : FetchOutcome :=
  Resolves {| status := 200; text := unread; json := inr v;
              arrayBuffer := unread |}.

Definition bytes_reply (b : Buffer) : FetchOutcome :=
  Resolves {| status := 200; text := unread; json := unread;
              arrayBuffer := inr b |}.

Definition error_reply (code : Z) (msg : jsstring) : FetchOutcome :=
  Resolves {| status := code; text := inr msg; json := unread;
              arrayBuffer := unread |}.

(** What [fetch] rejects with when nobody listens. *)
Definition fetch_failed : JsError :=
  Thrown (lit "TypeError") (lit "fetch failed").

Definition refused : FetchOutcome := Rejects fetch_failed.

(** A network of three collaborators told apart by URL. *)
Definition serve (stt llm tts : FetchOutcome) (rq : FetchRequest)
  : FetchOutcome :=
  if jsstring_eqb (url rq) (STT_SERVICE_URL cfg ++ lit "/transcribe") then stt
  else if jsstring_eqb (url rq) (LLM_SERVICE_URL cfg ++ lit "/api/generate")
  then llm
  else if jsstring_eqb (url rq) (TTS_SERVICE_URL cfg ++ lit "/synthesize")
  then tts
  else refused.

(** A clock that advances 10 ms between two readings. *)
Definition steady (k : nat) : Z := 1000 + 10 * Z.of_nat k.

Definition wav : Buffer := [x52; x49; x46; x46; x24; x00].

Definition stt_ok : FetchOutcome :=
  json_reply (JObj [(lit "text", JStr (lit "hello there"))]).
Definition llm_ok : FetchOutcome :=
  json_reply (JObj [(lit "response", JStr (lit "Hi! How can I help?"));
                    (lit "done", JBool true)]).
Definition tts_ok : FetchOutcome := bytes_reply wav.

Definition happy : World :=
  {| now := steady; network := serve stt_ok llm_ok tts_ok |}.

Definition upload (name : option jsstring) (audio : Buffer) : Request :=
  {| file := inr (Some {| filename := name; toBuffer := inr audio |}) |}.

Definition recording : Request :=
  upload (Some (lit "recording.webm")) [x1a; x45; xdf; xa3].

Definition no_file : Request := {| file := inr None |}.

(** The same upload without a filename, and one with no content. *)
Definition unnamed : Request := upload None [x1a; x45; xdf; xa3].
Definition empty_upload : Request := upload (Some (lit "recording.webm")) [].

(** STT hears nothing but a space and a line feed. *)
Definition silence : World :=
  {| now := steady;
     network := serve (json_reply (JObj [(lit "text", JStr [32; 10]%N)]))
                      llm_ok tts_ok |}.

(** The LLM answers 500. *)
Definition llm_500 : World :=
  {| now := steady;
     network := serve stt_ok (error_reply 500 (lit "model not found"))
                      tts_ok |}.

(** STT, respectively the LLM, answers 500 and the connection is lost
    before the body of the answer has been read. *)
Definition body_lost : JsError := Thrown (lit "TypeError") (lit "terminated").
Definition cut_off : FetchOutcome :=
  Resolves {| status := 500; text := inl body_lost; json := unread;
              arrayBuffer := unread |}.
Definition stt_cut_off : World :=
  {| now := steady; network := serve cut_off llm_ok tts_ok |}.
Definition llm_cut_off : World :=
  {| now := steady; network := serve stt_ok cut_off tts_ok |}.

(** STT, respectively the LLM, cannot be reached. *)
Definition stt_down : World :=
  {| now := steady; network := serve refused llm_ok tts_ok |}.
Definition llm_down : World :=
  {| now := steady; network := serve stt_ok refused tts_ok |}.


End Scenario.

(* ===================================================================== *)
(** ** Vocabulary of the properties *)
(* ===================================================================== *)

(** The three stages of the pipeline and the endpoint each one calls. *)
Inductive Stage : Type := STT | LLM | TTS.

Definition Stage_eqb (a b : Stage) : bool :=
  match a, b with
  | STT, STT | LLM, LLM | TTS, TTS => true
  | _, _ => false
  end.

Definition endpoint (cfg : Config) (s : Stage) : jsstring :=
  match s with
  | STT => STT_SERVICE_URL cfg ++ lit "/transcribe"
  | LLM => LLM_SERVICE_URL cfg ++ lit "/api/generate"
  | TTS => TTS_SERVICE_URL cfg ++ lit "/synthesize"
  end.

(** The prefix by which an error message of the server names a stage. *)
Definition stage_label (s : Stage) : jsstring :=
  match s with
  | STT => lit "STT service error: "
  | LLM => lit "LLM service error: "
  | TTS => lit "TTS service error: "
  end.

(** The collaborator an outbound call went to, by its URL. *)
Definition stage_of (cfg : Config) (rq : FetchRequest) : option Stage :=
  if jsstring_eqb (url rq) (endpoint cfg STT) then Some STT
  else if jsstring_eqb (url rq) (endpoint cfg LLM) then Some LLM
  else if jsstring_eqb (url rq) (endpoint cfg TTS) then Some TTS
  else None.

(** The outbound calls of a run that went to one collaborator. *)
Definition calls_to (cfg : Config) (s : Stage) (st : State)
  : list FetchRequest :=
  filter (fun rq => match stage_of cfg rq with
                    | Some s' => Stage_eqb s s'
                    | None => false
                    end) (calls st).

(** Empty or whitespace-only. *)
Definition blank (s : jsstring) : bool := forallb isWhiteSpace s.

(** The request carries a file part with this filename and this content. *)
Definition uploaded (request : Request) (name : option jsstring)
  (audio : Buffer) : Prop :=
  file request = inr (Some {| filename := name; toBuffer := inr audio |}).

(** The filename hint the handler forwards for an uploaded name. *)
Definition hint (name : option jsstring) : jsstring :=
  or_default name (lit "audio.webm").

(** A collaborator succeeds with a JSON body whose [field] is the string
    [t]. *)
Definition returns_text (o : FetchOutcome) (field t : jsstring) : Prop :=
  exists r d, o = Resolves r /\ ok r = true /\ json r = inr d
              /\ member field d = inr (JStr t).

(** A collaborator succeeds with the bytes [b] as its body. *)
Definition returns_bytes (o : FetchOutcome) (b : Buffer) : Prop :=
  exists r, o = Resolves r /\ ok r = true /\ arrayBuffer r = inr b.

(** An error names a stage when its message starts with the stage's
    label, the way the server's own errors do. *)
Definition names_stage (e : JsError) (s : Stage) : Prop :=
  exists t, e = Error (stage_label s ++ t).

(** The call a run made last, where a failing run stopped. *)
Definition last_call (st : State) : option FetchRequest :=
  match rev (calls st) with
  | rq :: _ => Some rq
  | [] => None
  end.

(** [metrics.<k>.durationMs] of a reply body, when it is there. *)
Definition durationMs (k : jsstring) (body : JsValue) : option Z :=
  match member (lit "metrics") body with
  | inr metrics =>
      match member k metrics with
      | inr entry =>
          match member (lit "durationMs") entry with
          | inr (JNum n) => Some n
          | _ => None
          end
      | inl _ => None
      end
  | inl _ => None
  end.

(** The stage durations and the totals written to the log. *)
Definition stage_durations (l : list LogLine) : list Z :=
  flat_map (fun line => match line with
                        | LogTranscribed ms _
                        | LogGenerated ms _
                        | LogSynthesized ms _ => [ms]
                        | _ => []
                        end) l.

Definition total_durations (l : list LogLine) : list Z :=
  flat_map (fun line => match line with
                        | LogTotal ms => [ms]
                        | _ => []
                        end) l.




(** The messages of the two rejections the handler decides by itself. *)
Definition MissingInput : JsError := Error (lit "No audio file provided").
Definition NoSpeechDetected : JsError :=
  Error (lit "Could not transcribe audio - no speech detected").

(* ===================================================================== *)
(** ** The rest of the server: configuration fallback and the catch-all *)
(* ===================================================================== *)

(** The errors written to the log, oldest first. *)
Definition errors_logged (l : list LogLine) : list JsError :=
  flat_map (fun line => match line with
                        | LogError e => [e]
                        | _ => []
                        end) l.

(** An environment in which every variable set to the empty string is
    unset instead. *)
Definition without_empty (env : jsstring -> option jsstring)
  : jsstring -> option jsstring :=
  fun k => match env k with
           | Some [] => None
           | v => v
           end.

(** [s.startsWith(p)] *)
Fixpoint startsWith (s p : jsstring) : bool :=
  match p, s with
  | [], _ => true
  | _ :: _, [] => false
  | y :: p', x :: s' => (x =? y)%N && startsWith s' p'
  end.

(** What the not-found handler answers: the file it hands to
    [reply.sendFile], or a status code with a JSON body. *)
Inductive NotFoundReply : Type :=
| SendFile (path : jsstring)
| ReplyJSON (code : Z) (body : JsValue).

(** [fastify.setNotFoundHandler]: the SPA catch-all, on [request.url]. *)
Definition notFoundHandler (url_ : jsstring) : NotFoundReply :=
  (* Only serve index.html for non-API routes (SPA client-side routing) *)
  if negb (startsWith url_ (lit "/api/"))
     && negb (startsWith url_ (lit "/health"))
  then SendFile (lit "index.html")
  else ReplyJSON 404 (JObj [(lit "error", JStr (lit "Not found"))]).

(* ===================================================================== *)
(** ** The browser client: [api.ts] *)
(* ===================================================================== *)

(** A [Blob]: its bytes and its media type. *)
Record Blob : Type := {
  blob_bytes : Buffer;
  blob_type : jsstring
}.

(** [blob.size] *)
Definition size (b : Blob) : nat := List.length (blob_bytes b).

Module Atob.

Local Open Scope N_scope.

(** ASCII whitespace of the Infra standard: TAB, LF, FF, CR and SPACE. *)
Definition isAsciiWhitespace (c : N) : bool :=
  (c =? 9) || (c =? 10) || (c =? 12) || (c =? 13) || (c =? 32).

(** Forgiving-base64 decode, step 2: when the length is a multiple of 4,
    one or two [=] at the end are removed. *)
Definition strip_padding (data : jsstring) : jsstring :=
  if N.of_nat (List.length data) mod 4 =? 0 then
    match rev data with
    | c1 :: c2 :: r =>
        if c1 =? Base64.pad then
          if c2 =? Base64.pad then rev r else rev (c2 :: r)
        else data
    | [c1] => if c1 =? Base64.pad then [] else data
    | [] => data
    end
  else data.

(** Step 4: every code point left must be of the base64 alphabet. *)
Fixpoint sextets (data : jsstring) : option (list N) :=
  match data with
  | [] => Some []
  | c :: r =>
      match Base64.sextet c, sextets r with
      | Some v, Some l => Some (v :: l)
      | _, _ => None
      end
  end.

(** Steps 5 to 10: every four sextets fill a 24-bit buffer that gives three
    bytes; of a rest of three sextets the last two bits are dropped and
    two bytes come out, of a rest of two the last four bits and one
    byte. *)
Fixpoint bytes_of_sextets (l : list N) : list N :=
  match l with
  | s1 :: s2 :: s3 :: s4 :: r =>
      N.lor (N.shiftl s1 2) (N.shiftr s2 4)
      :: N.lor (N.shiftl (N.land s2 15) 4) (N.shiftr s3 2)
      :: N.lor (N.shiftl (N.land s3 3) 6) s4
      :: bytes_of_sextets r
  | [s1; s2; s3] =>
      [N.lor (N.shiftl s1 2) (N.shiftr s2 4);
       N.lor (N.shiftl (N.land s2 15) 4) (N.shiftr s3 2)]
  | [s1; s2] => [N.lor (N.shiftl s1 2) (N.shiftr s2 4)]
  | _ => []
  end.

(** The sextets and the number of [=] that [Base64.encode] writes, for the
    proof that [atob] reads them back. *)
Fixpoint sextets_of (bs : list byte) : list N :=
  match bs with
  | [] => []
  | [a] =>
      let a := Byte.to_N a in
      [N.shiftr a 2; N.shiftl (N.land a 3) 4]
  | [a; b] =>
      let a := Byte.to_N a in
      let b := Byte.to_N b in
      [N.shiftr a 2; N.lor (N.shiftl (N.land a 3) 4) (N.shiftr b 4);
       N.shiftl (N.land b 15) 2]
  | a :: b :: c :: r =>
      let a := Byte.to_N a in
      let b := Byte.to_N b in
      let c := Byte.to_N c in
      N.shiftr a 2
      :: N.lor (N.shiftl (N.land a 3) 4) (N.shiftr b 4)
      :: N.lor (N.shiftl (N.land b 15) 2) (N.shiftr c 6)
      :: N.land c 63
      :: sextets_of r
  end.

Fixpoint pad_count (bs : list byte) : nat :=
  match bs with
  | [] => 0
  | [_] => 2
  | [_; _] => 1
  | _ :: _ :: _ :: r => pad_count r
  end.

End Atob.

(** [types.ts].  A message id is the template [`${prefix}-${Date.now()}`],
    kept as its two parts; a timestamp is the clock reading of
    [new Date()]; an audio URL is the blob it was made for. *)
Module Types.

Inductive MessageType : Type := user | agent.

Inductive RecordingState : Type := idle | recording | processing.

Record MessageId : Type := {
  prefix : jsstring;
  stamp : Z
}.

Record Message : Type := {
  id : MessageId;
  type : MessageType;
  text : JsValue;
  timestamp : Z;
  audioUrl : option Blob
}.

End Types.

(** The state of the [App] component. *)
Record AppState : Type := {
  messages : list Types.Message;
  recordingState : Types.RecordingState;
  error : option jsstring
}.

(** What [useAudioRecorder] gives the callback: the [isRecording] it
    closed over, [startRecording], which acts on the browser (it writes
    what it catches to the console), and what [stopRecording()] settles to
    ([None] for [null]). *)
Record Recorder : Type := {
  isRecording : bool;
  startRecording : M unit;
  stopRecording : JsError + option Blob
}.

Section Client.

(** [import.meta.env.VITE_API_URL || ''] *)
Variable API_BASE_URL : jsstring.
(** The browser's network and clock. *)
Variable w : World.
(** The message of the [InvalidCharacterError] that [atob] throws, and the
    message the engine gives a [TypeError] of its own: both are the
    browser's wording. *)
Variable atob_message : jsstring.
Variable fault_message : EngineFault -> jsstring.
(** [String(n)] for a number. *)
Variable number_to_string : Z -> jsstring.

(** [atob(data)] for a string: the binary string of the decoded bytes. *)
Definition atob (data : jsstring) : JsError + jsstring :=
  let data := filter (fun c => negb (Atob.isAsciiWhitespace c)) data in
  let data := Atob.strip_padding data in
  if (N.of_nat (List.length data) mod 4 =? 1)%N then
    inl (Thrown (lit "InvalidCharacterError") atob_message)
  else
    match Atob.sextets data with
    | Some l => inr (Atob.bytes_of_sextets l)
    | None => inl (Thrown (lit "InvalidCharacterError") atob_message)
    end.

(** [bytes[i] = v] on a typed array: a write past the end does nothing. *)
Definition write_at (i : nat) (v : byte) (bytes : Buffer) : Buffer :=
  match skipn i bytes with
  | [] => bytes
  | _ :: r => firstn i bytes ++ v :: r
  end.

(** The string conversion of a value given where a string is expected. *)
Fixpoint to_string (v : JsValue) : JsError + jsstring :=
  match v with
  | JUndefined => inr (lit "undefined")
  | JNull => inr (lit "null")
  | JBool true => inr (lit "true")
  | JBool false => inr (lit "false")
  | JNum n => inr (number_to_string n)
  | JStr s => inr s
  | JArr items =>
      (fix join (l : list JsValue) : JsError + jsstring :=
         match l with
         | [] => inr []
         | x :: r =>
             let item := match x with
                         | JUndefined | JNull => inr []
                         | _ => to_string x
                         end in
             match item, r with
             | inl e, _ => inl e
             | inr s, [] => inr s
             | inr s, _ :: _ =>
                 match join r with
                 | inl e => inl e
                 | inr rest => inr (s ++ lit "," ++ rest)
                 end
             end
         end) items
  | JObj fs =>
      if has_key (lit "toString") fs then inl (TypeError NoPrimitive)
      else inr (lit "[object Object]")
  end.

(** [base64ToAudioUrl(base64, mimeType = 'audio/wav')].  The object URL
    returned stands for the blob it was made of, and is modelled by it. *)
Definition base64ToAudioUrl (base64 : jsstring) (mimeType : option jsstring)
  : JsError + Blob :=
  let mimeType := match mimeType with
                  | Some m => m
                  | None => lit "audio/wav"
                  end in
  match atob base64 with
  | inl e => inl e
  | inr binaryString =>
      let bytes := repeat x00 (List.length binaryString) in
      let bytes :=
        fold_left (fun bytes i =>
                     write_at i (Base64.byte_of (nth i binaryString 0%N))
                       bytes)
          (seq 0 (List.length binaryString)) bytes in
      inr {| blob_bytes := bytes; blob_type := mimeType |}
  end.

(** The arguments [sendAudioMessage] gives to [fetch].  A form part keeps
    the name, the content and the filename of what is appended. *)
Definition chat_request (audioBlob : Blob) : FetchRequest :=
  {| url := API_BASE_URL ++ lit "/api/chat";
     method := lit "POST";
     headers := [];
     body := FormData [{| part_name := lit "audio";
                          part_blob := blob_bytes audioBlob;
                          part_filename := lit "recording.webm" |}] |}.

(** [sendAudioMessage(audioBlob)] *)
Definition sendAudioMessage (audioBlob : Blob) : M JsValue :=
  response <- fetch w (chat_request audioBlob) ;;
  if negb (ok response) then
    errorText <- await (text response) ;;
    throw (Error (lit "Failed to send message: " ++ errorText))
  else
    await (json response).

(** [err.message]; every value thrown in the callback is an [Error]. *)
Definition message_of (err : JsError) : jsstring :=
  match err with
  | Error m => m
  | TypeError f => fault_message f
  | Thrown _ m => m
  end.

(** The [try] block of [handleToggleRecording], up to the two messages it
    appends. *)
Definition exchange (recorder : Recorder)
  : M (Types.Message * Types.Message) :=
  audioBlob <- await (stopRecording recorder) ;;
  match audioBlob with
  | None => throw (Error (lit "No audio recorded"))
  | Some audioBlob =>
      if Nat.eqb (size audioBlob) 0 then
        throw (Error (lit "No audio recorded"))
      else
        (* Send to server *)
        response <- sendAudioMessage audioBlob ;;
        (* Add user message (transcription) *)
        userStamp <- Date_now w ;;
        transcription <- await (member (lit "transcription") response) ;;
        userTime <- Date_now w ;;
        let userMessage :=
          {| Types.id := {| Types.prefix := lit "user";
                            Types.stamp := userStamp |};
             Types.type := Types.user;
             Types.text := transcription;
             Types.timestamp := userTime;
             Types.audioUrl := None |} in
        (* Convert base64 audio to URL *)
        audioBase64 <- await (member (lit "audioBase64") response) ;;
        base64 <- await (to_string audioBase64) ;;
        audioUrl <- await (base64ToAudioUrl base64 None) ;;
        (* Add agent message *)
        agentStamp <- Date_now w ;;
        responseText <- await (member (lit "response") response) ;;
        agentTime <- Date_now w ;;
        let agentMessage :=
          {| Types.id := {| Types.prefix := lit "agent";
                            Types.stamp := agentStamp |};
             Types.type := Types.agent;
             Types.text := responseText;
             Types.timestamp := agentTime;
             Types.audioUrl := Some audioUrl |} in
        ret (userMessage, agentMessage)
  end.

(** [handleToggleRecording]: the component's state and the browser's
    after the callback has run to its end.  [console.error] writes to the
    log. *)
Definition handleToggleRecording (recorder : Recorder) (app : AppState)
  (s : State) : AppState * State :=
  (* setError(null) *)
  let app := {| messages := messages app;
                recordingState := recordingState app;
                error := None |} in
  if isRecording recorder then
    (* Stop recording and send: setRecordingState('processing') *)
    let app := {| messages := messages app;
                  recordingState := Types.processing;
                  error := error app |} in
    let '(result, s) := exchange recorder s in
    let '(app, s) :=
      match result with
      | inr (userMessage, agentMessage) =>
          ({| messages := messages app ++ [userMessage; agentMessage];
              recordingState := recordingState app;
              error := error app |}, s)
      | inl err =>
          ({| messages := messages app;
              recordingState := recordingState app;
              error := Some (message_of err) |},
           snd (log_error err s))
      end in
    (* finally: setRecordingState('idle') *)
    ({| messages := messages app;
        recordingState := Types.idle;
        error := error app |}, s)
  else
    (* Start recording: setRecordingState('recording') *)
    let app := {| messages := messages app;
                  recordingState := Types.recording;
                  error := error app |} in
    (* await startRecording(): nothing follows it, and nothing awaits the
       callback, so how it settles changes no state *)
    let '(_, s) := startRecording recorder s in
    (app, s).

End Client.
(* ===================================================================== *)
(** ** The recorder hook: [useAudioRecorder.ts] *)
(* ===================================================================== *)

Module UseAudioRecorder.

(** [MediaRecorder.state] *)
Inductive RecordingState : Type := inactive | recording | paused.

(** The hook's React state ([isRecording], [error], [analyserNode]), its
    refs, and the two browser resources it acquires: a ref is [true] when
    it holds an object, and the counters tell how many media streams have
    live tracks and how many audio contexts are open.  [mediaRecorderRef]
    holds the recorder together with its current state. *)
Record Hook : Type := {
  isRecording : bool;
  error : option jsstring;
  analyserNode : bool;
  mediaRecorderRef : option RecordingState;
  audioChunksRef : list Blob;
  streamRef : bool;
  audioContextRef : bool;
  live_streams : nat;
  open_contexts : nat
}.

(** The hook as first rendered. *)
Definition mounted : Hook :=
  {| isRecording := false; error := None; analyserNode := false;
     mediaRecorderRef := None; audioChunksRef := [];
     streamRef := false; audioContextRef := false;
     live_streams := 0; open_contexts := 0 |}.

Section Hook.

Variable fault_message : EngineFault -> jsstring.

(** [startRecording()], given what [getUserMedia] and the [MediaRecorder]
    constructor settle to; the calls that build the audio graph are taken
    not to throw. *)
Definition startRecording (getUserMedia newMediaRecorder : JsError + unit)
  (h : Hook) : Hook :=
  (* setError(null); audioChunksRef.current = [] *)
  let h := {| isRecording := isRecording h; error := None;
              analyserNode := analyserNode h;
              mediaRecorderRef := mediaRecorderRef h; audioChunksRef := [];
              streamRef := streamRef h;
              audioContextRef := audioContextRef h;
              live_streams := live_streams h;
              open_contexts := open_contexts h |} in
  match getUserMedia with
  | inl err =>
      {| isRecording := isRecording h;
         error := Some (message_of fault_message err);
         analyserNode := analyserNode h;
         mediaRecorderRef := mediaRecorderRef h;
         audioChunksRef := audioChunksRef h;
         streamRef := streamRef h; audioContextRef := audioContextRef h;
         live_streams := live_streams h;
         open_contexts := open_contexts h |}
  | inr _ =>
      (* streamRef, audioContextRef and the analyser are set *)
      let h := {| isRecording := isRecording h; error := error h;
                  analyserNode := true;
                  mediaRecorderRef := mediaRecorderRef h;
                  audioChunksRef := audioChunksRef h;
                  streamRef := true; audioContextRef := true;
                  live_streams := S (live_streams h);
                  open_contexts := S (open_contexts h) |} in
      match newMediaRecorder with
      | inl err =>
          {| isRecording := isRecording h;
             error := Some (message_of fault_message err);
             analyserNode := analyserNode h;
             mediaRecorderRef := mediaRecorderRef h;
             audioChunksRef := audioChunksRef h;
             streamRef := streamRef h;
             audioContextRef := audioContextRef h;
             live_streams := live_streams h;
             open_contexts := open_contexts h |}
      | inr _ =>
          (* mediaRecorder.start(100); setIsRecording(true) *)
          {| isRecording := true; error := error h;
             analyserNode := analyserNode h;
             mediaRecorderRef := Some recording;
             audioChunksRef := audioChunksRef h;
             streamRef := streamRef h;
             audioContextRef := audioContextRef h;
             live_streams := live_streams h;
             open_contexts := open_contexts h |}
      end
  end.

End Hook.

(** [mediaRecorder.ondataavailable] *)
Definition ondataavailable (data : Blob) (h : Hook) : Hook :=
  if Nat.ltb 0 (size data) then
    {| isRecording := isRecording h; error := error h;
       analyserNode := analyserNode h;
       mediaRecorderRef := mediaRecorderRef h;
       audioChunksRef := audioChunksRef h ++ [data];
       streamRef := streamRef h; audioContextRef := audioContextRef h;
       live_streams := live_streams h; open_contexts := open_contexts h |}
  else h.

(** [new Blob(parts, { type })]: the parts one after the other. *)
Definition new_Blob (parts : list Blob) (type_ : jsstring) : Blob :=
  {| blob_bytes := List.concat (map blob_bytes parts); blob_type := type_ |}.

(** [mediaRecorder.onstop], set by [stopRecording]: the state left and
    the blob the promise resolves with. *)
Definition onstop (h : Hook) : Hook * Blob :=
  (* Stop all tracks; close audio context *)
  let audioBlob := new_Blob (audioChunksRef h) (lit "audio/webm") in
  ({| isRecording := false; error := error h; analyserNode := false;
      mediaRecorderRef := mediaRecorderRef h; audioChunksRef := [];
      streamRef := false; audioContextRef := false;
      live_streams := if streamRef h then pred (live_streams h)
                      else live_streams h;
      open_contexts := if audioContextRef h then pred (open_contexts h)
                       else open_contexts h |},
   audioBlob).

(** What the call of [stopRecording()] does at once: it resolves with
    [null], or it stops the recorder, whose [stop] event then runs
    [onstop]. *)
Inductive StopCall : Type :=
| ResolvedNull (h : Hook)
| Stopping (h : Hook).

Definition stopRecording (h : Hook) : StopCall :=
  match mediaRecorderRef h with
  | None | Some inactive =>
      ResolvedNull
        {| isRecording := false; error := error h;
           analyserNode := analyserNode h;
           mediaRecorderRef := mediaRecorderRef h;
           audioChunksRef := audioChunksRef h;
           streamRef := streamRef h; audioContextRef := audioContextRef h;
           live_streams := live_streams h;
           open_contexts := open_contexts h |}
  | Some _ =>
      Stopping
        {| isRecording := isRecording h; error := error h;
           analyserNode := analyserNode h;
           mediaRecorderRef := Some inactive;
           audioChunksRef := audioChunksRef h;
           streamRef := streamRef h; audioContextRef := audioContextRef h;
           live_streams := live_streams h;
           open_contexts := open_contexts h |}
  end.

(** The data events of a recording, delivered in order. *)
Definition deliver (chunks : list Blob) (h : Hook) : Hook :=
  fold_left (fun h data => ondataavailable data h) chunks h.

(** One recording from a successful start to the [stop] event: the chunks
    delivered while recording, the call of [stopRecording], the chunks
    flushed by [stop()], and [onstop].  [None] when [stopRecording]
    resolved with [null]. *)
Definition session (fault_message : EngineFault -> jsstring)
  (during flushed : list Blob) (h : Hook) : Hook * option Blob :=
  let h := startRecording fault_message (inr tt) (inr tt) h in
  let h := deliver during h in
  match stopRecording h with
  | ResolvedNull h => (h, None)
  | Stopping h =>
      let '(h, audioBlob) := onstop (deliver flushed h) in
      (h, Some audioBlob)
  end.

End UseAudioRecorder.

(* ===================================================================== *)
(** ** The model-pull script: waiting for the Ollama server *)
(* ===================================================================== *)

Module PullModel.

Definition MAX_RETRIES : nat := 30.

(** [MODEL_NAME="${1:-gemma3:4b}"]: the default when the argument is
    unset or empty. *)
Definition MODEL_NAME (arg1 : option jsstring) : jsstring :=
  match arg1 with
  | Some (c :: s) => c :: s
  | _ => lit "gemma3:4b"
  end.

(** How the [until curl ...; do ... done] loop ends: the server answered,
    or the script gave up with [exit 1]; with the number of probes made
    and of [sleep 2] taken. *)
Inductive Waited : Type :=
| Ready (probes sleeps : nat)
| GaveUp (probes sleeps : nat).

(** The loop, [probe k] being whether the [k]-th [curl] (from 0)
    succeeds.  [fuel] bounds the iterations of the model only. *)
Fixpoint wait_loop (fuel : nat) (probe : nat -> bool)
  (probes sleeps RETRY_COUNT : nat) : option Waited :=
  match fuel with
  | O => None
  | S fuel =>
      if probe probes then Some (Ready (S probes) sleeps)
      else
        let RETRY_COUNT := S RETRY_COUNT in
        if Nat.leb MAX_RETRIES RETRY_COUNT then
          Some (GaveUp (S probes) sleeps)
        else wait_loop fuel probe (S probes) (S sleeps) RETRY_COUNT
  end.

(** What the script does after [ollama serve &]: its exit status, whether
    [ollama pull] was run and with which model, and whether the server was
    stopped ([kill] and [wait]).  With [set -e] a failing pull ends the
    script with the pull's status. *)
Record Finished : Type := {
  exit_status : nat;
  pulled : option jsstring;
  server_stopped : bool
}.

Definition script (fuel : nat) (arg1 : option jsstring) (probe : nat -> bool)
  (pull_status : nat) : option Finished :=
  match wait_loop fuel probe 0 0 0 with
  | None => None
  | Some (GaveUp _ _) =>
      Some {| exit_status := 1; pulled := None; server_stopped := false |}
  | Some (Ready _ _) =>
      match pull_status with
      | O => Some {| exit_status := 0; pulled := Some (MODEL_NAME arg1);
                     server_stopped := true |}
      | S _ => Some {| exit_status := pull_status;
                       pulled := Some (MODEL_NAME arg1);
                       server_stopped := false |}
      end
  end.

End PullModel.
(* ===================================================================== *)
(** ** A concrete browser *)
(* ===================================================================== *)

Module ClientScenario.

Definition atob_message : jsstring :=
  lit "The string to be decoded is not correctly encoded.".

Definition fault_message (f : EngineFault) : jsstring :=
  lit "Cannot read properties of null".

Definition number_to_string (n : Z) : jsstring := lit "0".

(** The body the chat handler returns in the scenario of the server. *)
Definition reply_body : JsValue :=
  JObj [(lit "transcription", JStr (lit "hello there"));
        (lit "response", JStr (lit "Hi! How can I help?"));
        (lit "audioBase64", JStr (lit "UklGRiQA"))].

(** A browser whose server answers with that body, and one whose server
    answers 500. *)
Definition online : World :=
  {| now := Scenario.steady;
     network := fun _ => Scenario.json_reply reply_body |}.

Definition failing : World :=
  {| now := Scenario.steady;
     network := fun _ => Scenario.error_reply 500 (lit "STT service error: down") |}.

Definition clip : Blob :=
  {| blob_bytes := [x1a; x45; xdf; xa3]; blob_type := lit "audio/webm" |}.

Definition silent_chunk : Blob :=
  {| blob_bytes := []; blob_type := lit "audio/webm" |}.

Definition stopped_with (b : option Blob) : Recorder :=
  {| isRecording := true; startRecording := ret tt; stopRecording := inr b |}.

Definition conversation : AppState :=
  {| messages := []; recordingState := Types.recording; error := None |}.

(** The pull script's server answers the third probe. *)
Definition third_probe (k : nat) : bool := Nat.eqb k 2.

End ClientScenario.

(* ===================================================================== *)
(** ** Sanity checks of the embedding *)
(* ===================================================================== *)

Example base64_rfc_f : Base64.encode [x66] = lit "Zg==".
Proof. reflexivity. Qed.
Example base64_rfc_fo : Base64.encode [x66; x6f] = lit "Zm8=".
Proof. reflexivity. Qed.
Example base64_rfc_foobar :
  Base64.encode [x66; x6f; x6f; x62; x61; x72] = lit "Zm9vYmFy".
Proof. reflexivity. Qed.
Example base64_high_bits : Base64.encode [xfb; xff; xbe] = lit "+/++".
Proof. reflexivity. Qed.
Example trim_example :
  trim (lit " hello there ") = lit "hello there" /\ trim [0x00A0; 0x000A]%N = [].
Proof. split; reflexivity. Qed.

Example scenario_happy_body :
  fst (run Scenario.cfg Scenario.happy Scenario.recording)
  = inr (JObj [(lit "transcription", JStr (lit "hello there"));
               (lit "response", JStr (lit "Hi! How can I help?"));
               (lit "audioBase64", JStr (lit "UklGRiQA"))]).
Proof. vm_compute. reflexivity. Qed.

Example scenario_happy_log :
  log (snd (run Scenario.cfg Scenario.happy Scenario.recording))
  = [LogReceived (lit "recording.webm") 4; LogTranscribing;
     LogTranscribed 10 (JStr (lit "hello there")); LogGenerating;
     LogGenerated 10 (lit "Hi! How can I help?"); LogSynthesizing;
     LogSynthesized 10 6; LogTotal 70].
Proof. vm_compute. reflexivity. Qed.

(* ===================================================================== *)
(** ** Strings: equality test, endpoints, blank transcripts *)
(* ===================================================================== *)

Lemma jsstring_eqb_eq (a b : jsstring) : jsstring_eqb a b = true <-> a = b.
Proof.
  revert b. induction a as [|x a IH]; intros [|y b]; simpl;
    try (split; (reflexivity || discriminate)).
  rewrite andb_true_iff, N.eqb_eq, IH. split.
  - now intros [-> ->].
  - now intros [= -> ->].
Qed.

Lemma jsstring_eqb_refl (a : jsstring) : jsstring_eqb a a = true.
Proof. now apply jsstring_eqb_eq. Qed.

Lemma jsstring_eqb_neq (a b : jsstring) : a <> b -> jsstring_eqb a b = false.
Proof.
  intros H. destruct (jsstring_eqb a b) eqn:E; [|reflexivity].
  now apply jsstring_eqb_eq in E.
Qed.

(** Two paths that differ in their second-to-last character end different
    URLs, whatever the base URLs are. *)
Lemma suffix_apart (a b p q : jsstring) (x y z : N) (p' q' : jsstring) :
  rev p = x :: y :: p' -> rev q = x :: z :: q' -> y <> z ->
  a ++ p <> b ++ q.
Proof.
  intros Hp Hq Hyz H. apply (f_equal (@rev N)) in H.
  rewrite !rev_app_distr, Hp, Hq in H. simpl in H. congruence.
Qed.

Lemma endpoint_inj (cfg : Config) (s s' : Stage) :
  endpoint cfg s = endpoint cfg s' -> s = s'.
Proof.
  destruct s, s'; simpl; intros H; try reflexivity; exfalso; revert H;
    eapply suffix_apart; try (vm_compute; reflexivity); discriminate.
Qed.

Lemma stage_of_endpoint (cfg : Config) (rq : FetchRequest) (s : Stage) :
  url rq = endpoint cfg s -> stage_of cfg rq = Some s.
Proof.
  intros H. unfold stage_of. rewrite H.
  destruct s; rewrite ?jsstring_eqb_refl; try reflexivity;
    repeat (rewrite jsstring_eqb_neq
              by (intros E; apply endpoint_inj in E; discriminate));
    rewrite ?jsstring_eqb_refl; reflexivity.
Qed.

Lemma stage_of_stt_request cfg audio name :
  stage_of cfg (stt_request cfg audio name) = Some STT.
Proof. now apply stage_of_endpoint. Qed.

Lemma stage_of_llm_request cfg prompt :
  stage_of cfg (llm_request cfg prompt) = Some LLM.
Proof. now apply stage_of_endpoint. Qed.

Lemma stage_of_tts_request cfg t :
  stage_of cfg (tts_request cfg t) = Some TTS.
Proof. now apply stage_of_endpoint. Qed.

Lemma trimStart_nil_iff (s : jsstring) : trimStart s = [] <-> blank s = true.
Proof.
  induction s as [|c r IH]; simpl; [tauto|].
  destruct (isWhiteSpace c); simpl; [exact IH|]. split; discriminate.
Qed.

(** [trimStart] leaves nothing, or something that starts with a
    character it does not strip. *)
Lemma trimStart_head (s : jsstring) :
  match trimStart s with
  | [] => True
  | c :: _ => isWhiteSpace c = false
  end.
Proof.
  induction s as [|c r IH]; simpl; [exact I|].
  destruct (isWhiteSpace c) eqn:E; [exact IH|exact E].
Qed.

Lemma blank_rev (s : jsstring) : blank (rev s) = blank s.
Proof.
  unfold blank. induction s as [|c r IH]; [reflexivity|]. simpl.
  rewrite forallb_app, IH. simpl. rewrite andb_true_r. apply andb_comm.
Qed.

(** [!transcription.trim()] holds exactly for an empty or whitespace-only
    transcript. *)
Lemma trim_falsy_iff_blank (s : jsstring) : negb (truthy (trim s)) = blank s.
Proof.
  assert (E : trim s = [] <-> blank s = true).
  { unfold trim, trimEnd. split.
    - intros H. apply (f_equal (@rev N)) in H. rewrite rev_involutive in H.
      simpl in H. apply trimStart_nil_iff in H. rewrite blank_rev in H.
      pose proof (trimStart_head s) as Hh.
      destruct (trimStart s) as [|c r] eqn:Es.
      + now apply trimStart_nil_iff.
      + simpl in H. rewrite Hh in H. discriminate.
    - intros H. apply trimStart_nil_iff in H. rewrite H. reflexivity. }
  destruct (trim s) eqn:Et, (blank s) eqn:Eb; simpl; try reflexivity.
  - destruct E as [E _]. now rewrite E.
  - destruct E as [_ E]. now discriminate E.
Qed.

(* ===================================================================== *)
(** ** Base64 loses nothing *)
(* ===================================================================== *)

Module Base64Facts.
Import Base64.

Local Open Scope N_scope.

Lemma forall_below (k : nat) (P : N -> bool) :
  forallb P (below k) = true -> forall n, n < N.of_nat k -> P n = true.
Proof.
  intros H n Hn. rewrite forallb_forall in H. apply H. unfold below.
  apply in_map_iff. exists (N.to_nat n). split; [apply N2Nat.id|].
  apply in_seq. lia.
Qed.

Lemma sextet_alphabet (i : N) :
  i < 64 -> sextet (alphabet i) = Some i /\ (alphabet i =? pad) = false.
Proof.
  intros Hi.
  pose proof (forall_below 64
    (fun i => match sextet (alphabet i) with
              | Some j => (j =? i) && negb (alphabet i =? pad)
              | None => false
              end)) as H.
  specialize (H ltac:(vm_compute; reflexivity) i Hi). cbv beta in H.
  destruct (sextet (alphabet i)) as [j|]; [|discriminate].
  apply andb_true_iff in H. destruct H as [Hj Hp].
  apply N.eqb_eq in Hj. subst j. split; [reflexivity|].
  now apply negb_true_iff.
Qed.

Lemma one_byte (a : byte) : one_byte_ok (Byte.to_N a) = true.
Proof.
  apply (forall_below 256 one_byte_ok); [vm_compute; reflexivity|].
  pose proof (Byte.to_N_bounded a). lia.
Qed.

Lemma two_bytes (a b : byte) : two_bytes_ok (Byte.to_N a) (Byte.to_N b) = true.
Proof.
  pose proof (forall_below 256
    (fun a => forallb (two_bytes_ok a) (below 256))) as H.
  specialize (H ltac:(vm_compute; reflexivity) (Byte.to_N a)).
  pose proof (Byte.to_N_bounded a). pose proof (Byte.to_N_bounded b).
  apply (forall_below 256 (two_bytes_ok (Byte.to_N a))); [apply H|]; lia.
Qed.

Lemma byte_of_to_N (a : byte) : byte_of (Byte.to_N a) = a.
Proof.
  unfold byte_of. pose proof (Byte.to_N_bounded a).
  rewrite N.mod_small by lia. now rewrite Byte.of_to_N.
Qed.

Ltac split_checks H :=
  repeat match type of H with
         | (_ && _)%bool = true =>
             let H1 := fresh "K" in
             apply andb_true_iff in H; destruct H as [H H1];
             first [apply N.eqb_eq in H1 | apply N.ltb_lt in H1]
         end;
  first [apply N.eqb_eq in H | apply N.ltb_lt in H].

Lemma decode_step (s1 s2 s3 s4 : N) (r : jsstring) (rest : list byte) :
  s1 < 64 -> s2 < 64 -> s3 < 64 -> s4 < 64 -> decode r = Some rest ->
  decode (alphabet s1 :: alphabet s2 :: alphabet s3 :: alphabet s4 :: r)
  = Some (byte_of (N.lor (N.shiftl s1 2) (N.shiftr s2 4))
          :: byte_of (N.lor (N.shiftl (N.land s2 15) 4) (N.shiftr s3 2))
          :: byte_of (N.lor (N.shiftl (N.land s3 3) 6) s4) :: rest).
Proof.
  intros H1 H2 H3 H4 Hr. cbn [decode].
  destruct (sextet_alphabet s1 H1) as [-> _].
  destruct (sextet_alphabet s2 H2) as [-> _].
  destruct (sextet_alphabet s3 H3) as [-> ->].
  destruct (sextet_alphabet s4 H4) as [-> ->].
  now rewrite Hr.
Qed.

Lemma decode_tail2 (s1 s2 s3 : N) :
  s1 < 64 -> s2 < 64 -> s3 < 64 ->
  decode [alphabet s1; alphabet s2; alphabet s3; pad]
  = Some [byte_of (N.lor (N.shiftl s1 2) (N.shiftr s2 4));
          byte_of (N.lor (N.shiftl (N.land s2 15) 4) (N.shiftr s3 2))].
Proof.
  intros H1 H2 H3. cbn [decode].
  destruct (sextet_alphabet s1 H1) as [-> _].
  destruct (sextet_alphabet s2 H2) as [-> _].
  destruct (sextet_alphabet s3 H3) as [-> ->].
  reflexivity.
Qed.

Lemma decode_tail1 (s1 s2 : N) :
  s1 < 64 -> s2 < 64 ->
  decode [alphabet s1; alphabet s2; pad; pad]
  = Some [byte_of (N.lor (N.shiftl s1 2) (N.shiftr s2 4))].
Proof.
  intros H1 H2. cbn [decode].
  destruct (sextet_alphabet s1 H1) as [-> _].
  destruct (sextet_alphabet s2 H2) as [-> _].
  reflexivity.
Qed.

(** Induction three bytes at a time. *)
Lemma by_triples (P : list byte -> Prop) :
  P [] -> (forall a, P [a]) -> (forall a b, P [a; b]) ->
  (forall a b c r, P r -> P (a :: b :: c :: r)) ->
  forall bs, P bs.
Proof.
  intros H0 H1 H2 H3.
  fix IH 1. intros [|a [|b [|c r]]];
    [exact H0 | apply H1 | apply H2 | apply H3, IH].
Qed.

Ltac byte_facts a :=
  let H := fresh "H" in
  pose proof (one_byte a) as H; unfold one_byte_ok in H; split_checks H.

Ltac pair_facts a b :=
  let H := fresh "H" in
  pose proof (two_bytes a b) as H; unfold two_bytes_ok in H; cbv zeta in H;
  split_checks H.

Ltac recombine :=
  repeat match goal with
         | H : ?l = _ |- context [?l] => rewrite H
         end;
  rewrite ?byte_of_to_N; reflexivity.

(** Decoding the base64 text of a buffer gives the buffer back. *)
Lemma decode_encode (bs : list byte) : decode (encode bs) = Some bs.
Proof.
  induction bs as [|a|a b|a b c r IH] using by_triples.
  - reflexivity.
  - byte_facts a. cbn [encode]. rewrite decode_tail1 by assumption.
    recombine.
  - byte_facts a. byte_facts b. pair_facts a b.
    cbn [encode]. rewrite decode_tail2 by assumption. recombine.
  - byte_facts a. byte_facts b. byte_facts c.
    pair_facts a b. pair_facts b c.
    cbn [encode]. rewrite (decode_step _ _ _ _ _ r) by assumption.
    recombine.
Qed.

End Base64Facts.

(* ===================================================================== *)
(** ** Running the handler symbolically *)
(* ===================================================================== *)

(** Unfold the handler as far as the outside world has been fixed. *)
Ltac unfold_handler :=
  cbv beta iota zeta delta
    [run chat_handler pipeline transcribeAudio generateLLMResponse
     synthesizeSpeech fetch Date_now bind ret throw try_catch await
     log_info log_error reply_code init filename toBuffer
     ticks calls log statusCode events fst snd hint].

Ltac use_world :=
  match goal with
  | H : ?l = _ |- context [?l] => rewrite H
  | |- context [negb (truthy (trim ?t))] => rewrite (trim_falsy_iff_blank t)
  end.

Ltac exec :=
  repeat first [ progress unfold_handler
               | use_world
               | progress (cbn [negb app call_trim call_substring0
                                interpolate stringifiable]) ].

(** Open the vocabulary of the hypotheses. *)
Ltac open_world :=
  repeat match goal with
         | H : uploaded _ _ _ |- _ => unfold uploaded in H
         | H : returns_text _ _ _ |- _ =>
             let r := fresh "r" in let d := fresh "d" in
             destruct H as (r & d & ? & ? & ? & ?)
         | H : returns_bytes _ _ |- _ =>
             let r := fresh "r" in destruct H as (r & ? & ? & ?)
         end;
  unfold hint in *.

(* ===================================================================== *)
(** ** The pipeline on success *)
(* ===================================================================== *)

(** The whole run when every collaborator succeeds, for use below: body,
    status code, outbound calls and log. *)
Lemma run_success cfg w request name audio t r b :
  uploaded request name audio ->
  returns_text (network w (stt_request cfg audio (hint name))) (lit "text") t ->
  blank t = false ->
  returns_text (network w (llm_request cfg (JStr t))) (lit "response") r ->
  returns_bytes (network w (tts_request cfg (JStr r))) b ->
  run cfg w request
  = (inr (JObj [(lit "transcription", JStr t);
                (lit "response", JStr r);
                (lit "audioBase64", JStr (Base64.encode b))]),
     {| ticks := 8;
        calls := [stt_request cfg audio (hint name);
                  llm_request cfg (JStr t);
                  tts_request cfg (JStr r)];
        log := [LogReceived (hint name) (List.length audio);
                LogTranscribing;
                LogTranscribed (now w 2 - now w 1) (JStr t);
                LogGenerating;
                LogGenerated (now w 4 - now w 3) (substring0 100 r);
                LogSynthesizing;
                LogSynthesized (now w 6 - now w 5) (List.length b);
                LogTotal (now w 7 - now w 0)];
        statusCode := 200;
        events := [Clock 0; Clock 1;
                   Sent (stt_request cfg audio (hint name));
                   Clock 2; Clock 3;
                   Sent (llm_request cfg (JStr t));
                   Clock 4; Clock 5;
                   Sent (tts_request cfg (JStr r));
                   Clock 6; Clock 7] |}).
Proof.
  intros. open_world. exec. reflexivity.
Qed.

(* ===================================================================== *)
(** ** Every way a run can go *)
(* ===================================================================== *)

(** Case analysis on what the outside world answers, in the order the
    handler asks; the goal is [run ... = (res, st) -> _]. *)
Ltac ask_world :=
  match goal with
  | |- ?lhs = _ -> _ =>
      match lhs with
      | context [file ?r] => destruct (file r) as [?|[[? ?]|]] eqn:?
      | context [match ?x with inl _ => _ | inr _ => _ end] =>
          is_var x; destruct x
      | context [network ?w ?rq] => destruct (network w rq) eqn:?
      | context [ok ?r] => destruct (ok r) eqn:?
      | context [text ?r] => destruct (text r) eqn:?
      | context [json ?r] => destruct (json r) eqn:?
      | context [arrayBuffer ?r] => destruct (arrayBuffer r) eqn:?
      | context [member ?k ?d] => destruct (member k d) eqn:?
      | context [interpolate ?v] => destruct (interpolate v) as [?|[]] eqn:?
      | context [call_trim ?v] => destruct (call_trim v) eqn:?
      | context [truthy ?s] => destruct (truthy s) eqn:?
      | context [blank ?s] => destruct (blank s) eqn:?
      | context [call_substring0 ?n ?v] =>
          destruct (call_substring0 n v) eqn:?
      end
  end.

Ltac all_runs :=
  match goal with
  | |- context [run ?cfg ?w ?request] =>
      let res := fresh "res" in
      let st := fresh "st" in
      let Hrun := fresh "Hrun" in
      destruct (run cfg w request) as [res st] eqn:Hrun; revert Hrun
  end;
  repeat first [ progress unfold_handler
               | use_world
               | progress (cbn [negb app call_trim call_substring0
                                interpolate stringifiable])
               | ask_world ];
  intros [= <- <-]; cbn [fst snd calls log statusCode ticks events].

Ltac same_answer :=
  repeat match goal with
         | H1 : ?x = Resolves ?r1, H2 : ?x = Resolves ?r2 |- _ =>
             assert (r2 = r1) by congruence; subst r2; clear H2
         | H1 : ?x = Rejects ?e1, H2 : ?x = Rejects ?e2 |- _ =>
             assert (e2 = e1) by congruence; subst e2; clear H2
         | H1 : ?x = inr ?t1, H2 : ?x = inr ?t2 |- _ =>
             assert (t2 = t1) by congruence; subst t2; clear H2
         end.

(** A call that fails at transport level ends the run with the error of
    [fetch], which is logged, and leaves the status code alone. *)
Lemma transport_failure_outcome cfg w request rq e :
  In rq (calls (snd (run cfg w request))) ->
  network w rq = Rejects e ->
  fst (run cfg w request) = inl e
  /\ statusCode (snd (run cfg w request)) = 200
  /\ In (LogError e) (log (snd (run cfg w request))).
Proof.
  all_runs.
  all: cbn [In]; intros Hin Hrej.
  all: repeat (destruct Hin as [<-|Hin]); try contradiction.
  all: try congruence.
  all: same_answer; repeat split; try reflexivity; tauto.
Qed.

(* ===================================================================== *)
(** ** Properties of the request pipeline *)
(* ===================================================================== *)

(** C1.  When the request carries a file, the STT, LLM and TTS
    collaborators all succeed and the transcript is not blank, the reply's
    [transcription] is exactly the STT text, [response] exactly the LLM
    text, and [audioBase64] the base64 text of exactly the TTS bytes
    (decoding it gives those bytes back). *)
Theorem chat_returns_collaborator_values cfg w request name audio t r b :
  uploaded request name audio ->
  returns_text (network w (stt_request cfg audio (hint name))) (lit "text") t ->
  blank t = false ->
  returns_text (network w (llm_request cfg (JStr t))) (lit "response") r ->
  returns_bytes (network w (tts_request cfg (JStr r))) b ->
  exists body audioBase64,
    fst (run cfg w request) = inr body
    /\ member (lit "transcription") body = inr (JStr t)
    /\ member (lit "response") body = inr (JStr r)
    /\ member (lit "audioBase64") body = inr (JStr audioBase64)
    /\ audioBase64 = Base64.encode b
    /\ Base64.decode audioBase64 = Some b.
Proof.
  intros Hup Hstt Hblank Hllm Htts.
  rewrite (run_success _ _ _ _ _ _ _ _ Hup Hstt Hblank Hllm Htts).
  eexists. eexists. cbn [fst]. split; [reflexivity|].
  repeat split; try reflexivity. apply Base64Facts.decode_encode.
Qed.

Lemma chat_returns_collaborator_values_witness :
  exists body audioBase64,
    fst (run Scenario.cfg Scenario.happy Scenario.recording) = inr body
    /\ member (lit "transcription") body = inr (JStr (lit "hello there"))
    /\ member (lit "response") body = inr (JStr (lit "Hi! How can I help?"))
    /\ member (lit "audioBase64") body = inr (JStr audioBase64)
    /\ audioBase64 = Base64.encode Scenario.wav
    /\ Base64.decode audioBase64 = Some Scenario.wav.
Proof.
  apply (chat_returns_collaborator_values Scenario.cfg Scenario.happy
           Scenario.recording (Some (lit "recording.webm"))
           [x1a; x45; xdf; xa3]).
  - reflexivity.
  - eexists; eexists; repeat split; reflexivity.
  - reflexivity.
  - eexists; eexists; repeat split; reflexivity.
  - eexists; repeat split; reflexivity.
Defined.

(* ===================================================================== *)
(** ** Rejections and failures *)
(* ===================================================================== *)

(** The run that stops at a blank transcript. *)
Lemma run_no_speech cfg w request name audio t :
  uploaded request name audio ->
  returns_text (network w (stt_request cfg audio (hint name))) (lit "text") t ->
  blank t = true ->
  run cfg w request
  = (inl NoSpeechDetected,
     {| ticks := 3;
        calls := [stt_request cfg audio (hint name)];
        log := [LogReceived (hint name) (List.length audio);
                LogTranscribing;
                LogTranscribed (now w 2 - now w 1) (JStr t);
                LogError NoSpeechDetected];
        statusCode := 400;
        events := [Clock 0; Clock 1;
                   Sent (stt_request cfg audio (hint name)); Clock 2] |}).
Proof.
  intros. open_world. exec. reflexivity.
Qed.

(** The run that stops at a non-success answer of the LLM, whatever
    reading the answer's body gives. *)
Lemma run_llm_failure cfg w request name audio t r2 :
  uploaded request name audio ->
  returns_text (network w (stt_request cfg audio (hint name))) (lit "text") t ->
  blank t = false ->
  network w (llm_request cfg (JStr t)) = Resolves r2 ->
  ok r2 = false ->
  let e := match text r2 with
           | inl e => e
           | inr m => Error (stage_label LLM ++ m)
           end in
  run cfg w request
  = (inl e,
     {| ticks := 4;
        calls := [stt_request cfg audio (hint name); llm_request cfg (JStr t)];
        log := [LogReceived (hint name) (List.length audio);
                LogTranscribing;
                LogTranscribed (now w 2 - now w 1) (JStr t);
                LogGenerating;
                LogError e];
        statusCode := 200;
        events := [Clock 0; Clock 1;
                   Sent (stt_request cfg audio (hint name));
                   Clock 2; Clock 3;
                   Sent (llm_request cfg (JStr t))] |}).
Proof.
  intros. open_world. subst e. exec. destruct (text r2); reflexivity.
Qed.

(** C2.  When STT returns an empty or whitespace-only transcript, the
    handler fails with NoSpeechDetected and status 400, and the only
    outbound call of the run is the one to STT: none goes to the LLM or to
    TTS.  The status tells it from a transport failure, which in any run
    leaves the status code at its default and surfaces the error of
    [fetch]. *)
Theorem no_speech_detected cfg w request name audio t :
  uploaded request name audio ->
  returns_text (network w (stt_request cfg audio (hint name))) (lit "text") t ->
  blank t = true ->
  fst (run cfg w request) = inl NoSpeechDetected
  /\ statusCode (snd (run cfg w request)) = 400
  /\ calls (snd (run cfg w request)) = [stt_request cfg audio (hint name)]
  /\ calls_to cfg LLM (snd (run cfg w request)) = []
  /\ calls_to cfg TTS (snd (run cfg w request)) = []
  /\ (forall w' request' rq e,
        In rq (calls (snd (run cfg w' request'))) ->
        network w' rq = Rejects e ->
        fst (run cfg w' request') = inl e
        /\ statusCode (snd (run cfg w' request')) = 200).
Proof.
  intros Hup Hstt Hblank.
  rewrite (run_no_speech _ _ _ _ _ _ Hup Hstt Hblank).
  unfold calls_to. cbn [fst snd statusCode calls filter].
  rewrite stage_of_stt_request. repeat split; try reflexivity.
  all: edestruct transport_failure_outcome as (? & ? & _); eassumption.
Qed.

Lemma no_speech_detected_witness :
  fst (run Scenario.cfg Scenario.silence Scenario.recording)
  = inl NoSpeechDetected
  /\ statusCode (snd (run Scenario.cfg Scenario.silence Scenario.recording))
     = 400.
Proof.
  pose proof (no_speech_detected Scenario.cfg Scenario.silence
                Scenario.recording (Some (lit "recording.webm"))
                [x1a; x45; xdf; xa3] [32; 10]%N) as H.
  destruct H as (H1 & H2 & _).
  - reflexivity.
  - eexists; eexists; repeat split; reflexivity.
  - reflexivity.
  - split; assumption.
Defined.

(** C3, as claimed, fails when the body of the LLM's answer cannot be
    read: the LLM answers 500, the connection is lost while the handler reads
    the body, and the error surfaced is the one of that read.  It names no
    stage, and it is the very error surfaced when the same happens to
    STT. *)
Lemma llm_failure_without_stage :
  (exists r2,
     network Scenario.llm_cut_off
       (llm_request Scenario.cfg (JStr (lit "hello there")))
     = Resolves r2
     /\ ok r2 = false)
  /\ option_map (stage_of Scenario.cfg)
       (last_call (snd (run Scenario.cfg Scenario.llm_cut_off
                          Scenario.recording)))
     = Some (Some LLM)
  /\ fst (run Scenario.cfg Scenario.llm_cut_off Scenario.recording)
     = inl Scenario.body_lost
  /\ fst (run Scenario.cfg Scenario.stt_cut_off Scenario.recording)
     = inl Scenario.body_lost
  /\ (forall s, ~ names_stage Scenario.body_lost s).
Proof.
  split; [eexists; split; vm_compute; reflexivity|].
  repeat split; try (vm_compute; reflexivity).
  intros s [t Ht]. discriminate Ht.
Qed.

(** C3, amended.  When the LLM answers with a non-success HTTP status, the
    handler fails and the run's outbound calls are the one to STT and the
    one to the LLM: TTS is never called.  When the body of the answer can
    be read, the error thrown is ["LLM service error: "] followed by that
    body, which names the LLM stage; when reading the body fails, the error
    of the read is thrown as it is.  Either way the error is logged and the
    status code is left at its default. *)
Theorem llm_failure_stops_pipeline cfg w request name audio t r2 :
  uploaded request name audio ->
  returns_text (network w (stt_request cfg audio (hint name))) (lit "text") t ->
  blank t = false ->
  network w (llm_request cfg (JStr t)) = Resolves r2 ->
  ok r2 = false ->
  (exists e, fst (run cfg w request) = inl e
             /\ (forall m, text r2 = inr m ->
                   e = Error (lit "LLM service error: " ++ m)
                   /\ names_stage e LLM)
             /\ (forall e', text r2 = inl e' -> e = e')
             /\ In (LogError e) (log (snd (run cfg w request))))
  /\ statusCode (snd (run cfg w request)) = 200
  /\ calls (snd (run cfg w request))
     = [stt_request cfg audio (hint name); llm_request cfg (JStr t)]
  /\ calls_to cfg TTS (snd (run cfg w request)) = [].
Proof.
  intros Hup Hstt Hblank Hllm Hok.
  rewrite (run_llm_failure _ _ _ _ _ _ _ Hup Hstt Hblank Hllm Hok).
  unfold calls_to. cbn [fst snd calls log statusCode filter].
  rewrite stage_of_stt_request, stage_of_llm_request.
  repeat split; try reflexivity.
  eexists. split; [reflexivity|]. split; [|split].
  - intros m Hm. rewrite Hm. split; [reflexivity|]. now exists m.
  - intros e' He'. now rewrite He'.
  - cbn [In]. tauto.
Qed.

Lemma llm_failure_stops_pipeline_witness :
  fst (run Scenario.cfg Scenario.llm_500 Scenario.recording)
  = inl (Error (lit "LLM service error: model not found"))
  /\ calls_to Scenario.cfg TTS
       (snd (run Scenario.cfg Scenario.llm_500 Scenario.recording)) = [].
Proof.
  pose proof (llm_failure_stops_pipeline Scenario.cfg Scenario.llm_500
                Scenario.recording (Some (lit "recording.webm"))
                [x1a; x45; xdf; xa3] (lit "hello there")
                {| status := 500; text := inr (lit "model not found");
                   json := Scenario.unread;
                   arrayBuffer := Scenario.unread |}) as H.
  destruct H as ((e & He & Hm & _) & _ & _ & Htts).
  - reflexivity.
  - eexists; eexists; repeat split; reflexivity.
  - reflexivity.
  - reflexivity.
  - reflexivity.
  - split; [|exact Htts]. rewrite He.
    destruct (Hm (lit "model not found") eq_refl) as [-> _]. reflexivity.
Defined.

(** C6.  A request without a file part fails with MissingInput and status
    400 before anything is sent: the run has no outbound call, to none of
    the three collaborators. *)
Theorem missing_input_rejected cfg w request :
  file request = inr None ->
  fst (run cfg w request) = inl MissingInput
  /\ statusCode (snd (run cfg w request)) = 400
  /\ calls (snd (run cfg w request)) = []
  /\ (forall s, calls_to cfg s (snd (run cfg w request)) = []).
Proof.
  intros H. unfold calls_to. exec. repeat split; reflexivity.
Qed.

Lemma missing_input_rejected_witness :
  fst (run Scenario.cfg Scenario.happy Scenario.no_file) = inl MissingInput
  /\ statusCode (snd (run Scenario.cfg Scenario.happy Scenario.no_file)) = 400
  /\ calls (snd (run Scenario.cfg Scenario.happy Scenario.no_file)) = [].
Proof.
  destruct (missing_input_rejected Scenario.cfg Scenario.happy
              Scenario.no_file eq_refl) as (H1 & H2 & H3 & _).
  repeat split; assumption.
Defined.

(* ===================================================================== *)
(** ** The request sent to the LLM *)
(* ===================================================================== *)

(** Every outbound call of a run is one of the three requests, and the
    prompt and the text sent on are strings. *)
Lemma calls_shape cfg w request rq :
  In rq (calls (snd (run cfg w request))) ->
  (exists audio name, rq = stt_request cfg audio name)
  \/ (exists t, rq = llm_request cfg (JStr t))
  \/ (exists r, rq = tts_request cfg (JStr r)).
Proof.
  all_runs.
  all: cbn [In]; intros Hin.
  all: repeat match goal with
         | H : call_trim ?v = inr _ |- _ =>
             is_var v; destruct v; try discriminate H
         | H : call_substring0 _ ?v = inr _ |- _ =>
             is_var v; destruct v; try discriminate H
         end.
  all: repeat (destruct Hin as [<-|Hin]; eauto 6).
  all: contradiction.
Qed.

(** C8.  For every transcript, [generateLLMResponse] makes exactly one
    outbound call: a POST to the LLM's [/api/generate] whose JSON body has
    the four members [model], [prompt], [system] and [stream], holding the
    configured model, the transcript, the system prompt and [false]; and
    every call a run of the handler makes to the LLM is such a request, so
    [stream] is never [true]. *)
Theorem llm_request_not_streamed cfg w (t : jsstring) (s : State) :
  (exists fields,
     calls (snd (generateLLMResponse cfg w (JStr t) s))
     = calls s ++ [{| url := LLM_SERVICE_URL cfg ++ lit "/api/generate";
                      method := lit "POST";
                      headers := [(lit "Content-Type",
                                   lit "application/json")];
                      body := JSONText (JObj fields) |}]
     /\ map fst fields
        = [lit "model"; lit "prompt"; lit "system"; lit "stream"]
     /\ lookup (lit "model") fields = Some (JStr (LLM_MODEL cfg))
     /\ lookup (lit "prompt") fields = Some (JStr t)
     /\ lookup (lit "system") fields = Some (JStr SYSTEM_PROMPT)
     /\ lookup (lit "stream") fields = Some (JBool false))
  /\ (forall request rq,
        In rq (calls (snd (run cfg w request))) ->
        stage_of cfg rq = Some LLM ->
        exists prompt,
          body rq = JSONText (JObj [(lit "model", JStr (LLM_MODEL cfg));
                                    (lit "prompt", JStr prompt);
                                    (lit "system", JStr SYSTEM_PROMPT);
                                    (lit "stream", JBool false)])).
Proof.
  split.
  - eexists. split.
    + unfold generateLLMResponse, fetch, bind, llm_request.
      destruct (network w _) as [e|r]; [reflexivity|].
      destruct (negb (ok r)).
      * unfold await, throw, ret. destruct (text r); reflexivity.
      * unfold await, throw, ret. destruct (json r) as [|d]; [reflexivity|].
        destruct (member _ d); reflexivity.
    + repeat split; reflexivity.
  - intros request rq Hin Hstage.
    destruct (calls_shape _ _ _ _ Hin)
      as [(audio & name & ->)|[(p & ->)|(r & ->)]].
    + rewrite stage_of_stt_request in Hstage. discriminate.
    + exists p. reflexivity.
    + rewrite stage_of_tts_request in Hstage. discriminate.
Qed.

(* ===================================================================== *)
(** ** The filename and the content of the upload *)
(* ===================================================================== *)

(** Two uploads of the same audio under different names go the same way
    when STT answers both alike: the filename reaches nothing but the STT
    request and the first log line. *)
Lemma filename_only_a_hint cfg w request1 name1 request2 name2 audio :
  uploaded request1 name1 audio ->
  uploaded request2 name2 audio ->
  network w (stt_request cfg audio (hint name2))
  = network w (stt_request cfg audio (hint name1)) ->
  fst (run cfg w request2) = fst (run cfg w request1)
  /\ statusCode (snd (run cfg w request2))
     = statusCode (snd (run cfg w request1))
  /\ tl (calls (snd (run cfg w request2)))
     = tl (calls (snd (run cfg w request1)))
  /\ tl (log (snd (run cfg w request2)))
     = tl (log (snd (run cfg w request1))).
Proof.
  intros H1 H2 Hnet. open_world.
  all_runs.
  all: exec; repeat split; reflexivity.
Qed.

(** Whatever happens next, an uploaded file is first sent to STT. *)
Lemma upload_reaches_stt cfg w request name audio :
  uploaded request name audio ->
  exists rest,
    calls (snd (run cfg w request))
    = stt_request cfg audio (hint name) :: rest.
Proof.
  intros H. open_world. all_runs.
  all: eexists; reflexivity.
Qed.

(** C9.  When the uploaded part has no filename (absent or empty), the
    filename sent to STT with the audio is ["audio.webm"]; and for any other
    name the same audio is uploaded under, if STT answers as it does for
    the default, the outcome, the status code and every later call are the
    same: nothing but the STT request (and the first log line) depends on
    the filename. *)
Theorem default_filename cfg w request name audio :
  uploaded request name audio ->
  name = None \/ name = Some [] ->
  (exists rest,
     calls (snd (run cfg w request))
     = {| url := STT_SERVICE_URL cfg ++ lit "/transcribe";
          method := lit "POST";
          headers := [];
          body := FormData [{| part_name := lit "audio";
                               part_blob := audio;
                               part_filename := lit "audio.webm" |}] |}
       :: rest)
  /\ (forall request' name',
        uploaded request' name' audio ->
        network w (stt_request cfg audio (hint name'))
        = network w (stt_request cfg audio (lit "audio.webm")) ->
        fst (run cfg w request') = fst (run cfg w request)
        /\ statusCode (snd (run cfg w request'))
           = statusCode (snd (run cfg w request))
        /\ tl (calls (snd (run cfg w request')))
           = tl (calls (snd (run cfg w request)))).
Proof.
  intros Hup Hname.
  assert (Hhint : hint name = lit "audio.webm")
    by (destruct Hname as [->| ->]; reflexivity).
  split.
  - destruct (upload_reaches_stt cfg w _ _ _ Hup) as [rest Hrest].
    exists rest. rewrite Hrest, Hhint. reflexivity.
  - intros request' name' Hup' Hnet. rewrite <- Hhint in Hnet.
    destruct (filename_only_a_hint cfg w _ _ _ _ _ Hup Hup' Hnet)
      as (? & ? & ? & _).
    auto.
Qed.

Lemma default_filename_witness :
  exists rest,
    calls (snd (run Scenario.cfg Scenario.happy Scenario.unnamed))
    = stt_request Scenario.cfg [x1a; x45; xdf; xa3] (lit "audio.webm") :: rest.
Proof.
  destruct (default_filename Scenario.cfg Scenario.happy Scenario.unnamed
              None [x1a; x45; xdf; xa3]) as [H _].
  - reflexivity.
  - left. reflexivity.
  - exact H.
Defined.

(** C10.  MissingInput looks at the presence of the file part only: a
    request whose file part has zero bytes of content is not rejected as
    MissingInput, and the part is forwarded: the first outbound call, and
    the only one to STT, is the POST to STT's [/transcribe] whose form has
    the one part ["audio"], with the empty content and the filename of the
    upload (or the default); and what that call gives decides the run: when
    it fails at transport level, the run fails with its error. *)
Theorem empty_audio_is_forwarded cfg w request name :
  uploaded request name [] ->
  let forwarded :=
    {| url := STT_SERVICE_URL cfg ++ lit "/transcribe";
       method := lit "POST";
       headers := [];
       body := FormData [{| part_name := lit "audio";
                            part_blob := [];
                            part_filename := or_default name
                                               (lit "audio.webm") |}] |} in
  (exists rest,
     calls (snd (run cfg w request)) = forwarded :: rest)
  /\ calls_to cfg STT (snd (run cfg w request)) = [forwarded]
  /\ (forall e, network w forwarded = Rejects e ->
                fst (run cfg w request) = inl e)
  /\ ~ (fst (run cfg w request) = inl MissingInput
        /\ statusCode (snd (run cfg w request)) = 400).
Proof.
  intros H forwarded.
  change forwarded with (stt_request cfg [] (hint name)).
  clear forwarded. open_world. unfold calls_to. all_runs.
  all: cbn [filter];
    rewrite ?stage_of_stt_request, ?stage_of_llm_request,
      ?stage_of_tts_request; cbn [Stage_eqb filter].
  all: split; [eexists; reflexivity|]; split; [reflexivity|].
  all: split; [intros ? ?; congruence|].
  all: intros [Herr Hcode]; try discriminate Hcode.
  all: vm_compute in Herr; discriminate Herr.
Qed.

Lemma empty_audio_is_forwarded_witness :
  calls_to Scenario.cfg STT
    (snd (run Scenario.cfg Scenario.happy Scenario.empty_upload))
  = [{| url := lit "http://localhost:8001/transcribe";
        method := lit "POST";
        headers := [];
        body := FormData [{| part_name := lit "audio";
                             part_blob := [];
                             part_filename := lit "recording.webm" |}] |}].
Proof.
  destruct (empty_audio_is_forwarded Scenario.cfg Scenario.happy
              Scenario.empty_upload (Some (lit "recording.webm")))
    as (_ & H & _).
  - reflexivity.
  - exact H.
Defined.

(* ===================================================================== *)
(** ** Timing: what is measured and where it goes *)
(* ===================================================================== *)

(** C4.  The reply of a run in which everything succeeds: its members
    are [transcription], [response] and [audioBase64] and nothing else, so
    [metrics] is undefined and none of the four durations is in it, while
    the three stage durations and the total have been computed and written
    to the log. *)
Lemma reply_without_metrics :
  exists body,
    fst (run Scenario.cfg Scenario.happy Scenario.recording) = inr body
    /\ body = JObj [(lit "transcription", JStr (lit "hello there"));
                    (lit "response", JStr (lit "Hi! How can I help?"));
                    (lit "audioBase64", JStr (lit "UklGRiQA"))]
    /\ member (lit "metrics") body = inr JUndefined
    /\ durationMs (lit "stt") body = None
    /\ durationMs (lit "llm") body = None
    /\ durationMs (lit "tts") body = None
    /\ durationMs (lit "total") body = None
    /\ stage_durations
         (log (snd (run Scenario.cfg Scenario.happy Scenario.recording)))
       = [10; 10; 10]
    /\ total_durations
         (log (snd (run Scenario.cfg Scenario.happy Scenario.recording)))
       = [70].
Proof.
  eexists. split; [vm_compute; reflexivity|].
  repeat split; vm_compute; reflexivity.
Qed.




(* ===================================================================== *)
(** ** What a failing stage surfaces *)
(* ===================================================================== *)

(** C7, as claimed, fails for transport failures: when STT cannot be
    reached and when the LLM cannot be reached, the caller gets the very
    same error, the one [fetch] rejected with, and it names no stage. *)
Lemma transport_failure_names_no_stage :
  fst (run Scenario.cfg Scenario.stt_down Scenario.recording)
  = inl Scenario.fetch_failed
  /\ option_map (stage_of Scenario.cfg)
       (last_call (snd (run Scenario.cfg Scenario.stt_down
                          Scenario.recording)))
     = Some (Some STT)
  /\ fst (run Scenario.cfg Scenario.llm_down Scenario.recording)
     = inl Scenario.fetch_failed
  /\ option_map (stage_of Scenario.cfg)
       (last_call (snd (run Scenario.cfg Scenario.llm_down
                          Scenario.recording)))
     = Some (Some LLM)
  /\ (forall s, ~ names_stage Scenario.fetch_failed s).
Proof.
  repeat split; try (vm_compute; reflexivity).
  intros s [t Ht]. discriminate Ht.
Qed.

(** C7, amended.  For every outbound call of a run: if the collaborator
    answered it with a non-success HTTP status and a body text, the run
    fails with the error ["<STAGE> service error: <body text>"], which
    names the stage the call went to and carries the upstream text; if the
    call failed at transport level, the run fails with the error of [fetch]
    itself, rethrown as it is, whether or not that names a stage.  Either
    way the error is logged and the status code is left at its default. *)
Theorem stage_failure_surfaced cfg w request rq :
  In rq (calls (snd (run cfg w request))) ->
  (forall r t,
     network w rq = Resolves r -> ok r = false -> text r = inr t ->
     exists s,
       stage_of cfg rq = Some s
       /\ fst (run cfg w request) = inl (Error (stage_label s ++ t))
       /\ names_stage (Error (stage_label s ++ t)) s
       /\ statusCode (snd (run cfg w request)) = 200
       /\ In (LogError (Error (stage_label s ++ t)))
            (log (snd (run cfg w request))))
  /\ (forall e,
        network w rq = Rejects e ->
        fst (run cfg w request) = inl e
        /\ statusCode (snd (run cfg w request)) = 200
        /\ In (LogError e) (log (snd (run cfg w request)))).
Proof.
  intros Hin. split.
  - revert Hin. all_runs.
    all: cbn [In]; intros Hin r' t' Hres Hok Htext.
    all: repeat (destruct Hin as [<-|Hin]); try contradiction.
    all: try congruence.
    all: same_answer.
    all: eexists; split;
      [first [apply stage_of_stt_request | apply stage_of_llm_request
             | apply stage_of_tts_request]|].
    all: split; [reflexivity|]; split; [eexists; reflexivity|].
    all: split; [reflexivity|tauto].
  - intros e He. eapply transport_failure_outcome; eassumption.
Qed.

Lemma stage_failure_surfaced_witness :
  fst (run Scenario.cfg Scenario.llm_500 Scenario.recording)
  = inl (Error (lit "LLM service error: model not found"))
  /\ (fst (run Scenario.cfg Scenario.llm_down Scenario.recording)
      = inl Scenario.fetch_failed).
Proof.
  split.
  - destruct (stage_failure_surfaced Scenario.cfg Scenario.llm_500
                Scenario.recording
                (llm_request Scenario.cfg (JStr (lit "hello there"))))
      as [H _].
    + right. left. reflexivity.
    + destruct (H _ (lit "model not found") eq_refl eq_refl eq_refl)
        as (s & Hs & Hrun & _).
      vm_compute in Hs. injection Hs as <-. exact Hrun.
  - destruct (stage_failure_surfaced Scenario.cfg Scenario.llm_down
                Scenario.recording
                (llm_request Scenario.cfg (JStr (lit "hello there"))))
      as [_ H].
    + right. left. reflexivity.
    + exact (proj1 (H _ eq_refl)).
Defined.

(* ===================================================================== *)
(** ** More about the pipeline: the other stages *)
(* ===================================================================== *)

(** X1.  When STT answers with a non-success HTTP status, the handler
    fails; with a readable body the error is ["STT service error: "]
    followed by the body.  The STT call is the only outbound call, nothing
    goes to the LLM or to TTS, and the status code stays at its default. *)
Theorem stt_failure_stops_pipeline cfg w request name audio r1 :
  uploaded request name audio ->
  network w (stt_request cfg audio (hint name)) = Resolves r1 ->
  ok r1 = false ->
  (exists e, fst (run cfg w request) = inl e
             /\ forall m, text r1 = inr m ->
                  e = Error (lit "STT service error: " ++ m))
  /\ calls (snd (run cfg w request)) = [stt_request cfg audio (hint name)]
  /\ calls_to cfg LLM (snd (run cfg w request)) = []
  /\ calls_to cfg TTS (snd (run cfg w request)) = []
  /\ statusCode (snd (run cfg w request)) = 200.
Proof.
  intros Hup Hstt Hok. open_world. unfold calls_to.
  destruct (text r1) as [e|m] eqn:Htext; exec;
    cbn [filter]; rewrite stage_of_stt_request; cbn [Stage_eqb];
    repeat split; try reflexivity.
  - eexists. split; [reflexivity|]. intros m [=].
  - eexists. split; [reflexivity|]. now intros m' [= <-].
Qed.

Lemma stt_failure_stops_pipeline_witness :
  fst (run Scenario.cfg
         {| now := Scenario.steady;
            network := Scenario.serve
                         (Scenario.error_reply 503 (lit "model loading"))
                         Scenario.llm_ok Scenario.tts_ok |}
         Scenario.recording)
  = inl (Error (lit "STT service error: model loading")).
Proof.
  destruct (stt_failure_stops_pipeline Scenario.cfg
              {| now := Scenario.steady;
                 network := Scenario.serve
                              (Scenario.error_reply 503 (lit "model loading"))
                              Scenario.llm_ok Scenario.tts_ok |}
              Scenario.recording (Some (lit "recording.webm"))
              [x1a; x45; xdf; xa3]
              {| status := 503; text := inr (lit "model loading");
                 json := Scenario.unread; arrayBuffer := Scenario.unread |})
    as ((e & He & Hm) & _).
  - reflexivity.
  - reflexivity.
  - reflexivity.
  - rewrite He. now rewrite (Hm _ eq_refl).
Defined.

(** X2.  When STT and the LLM succeed and TTS answers with a non-success
    HTTP status, the handler fails (with ["TTS service error: "] and the
    body when it is readable): all three calls were made, in order, and no
    reply body is returned, so the transcript and the LLM text already
    obtained reach the caller in no form. *)
Theorem tts_failure_returns_nothing cfg w request name audio t r r3 :
  uploaded request name audio ->
  returns_text (network w (stt_request cfg audio (hint name))) (lit "text") t ->
  blank t = false ->
  returns_text (network w (llm_request cfg (JStr t))) (lit "response") r ->
  network w (tts_request cfg (JStr r)) = Resolves r3 ->
  ok r3 = false ->
  (exists e, fst (run cfg w request) = inl e
             /\ forall m, text r3 = inr m ->
                  e = Error (lit "TTS service error: " ++ m))
  /\ calls (snd (run cfg w request))
     = [stt_request cfg audio (hint name); llm_request cfg (JStr t);
        tts_request cfg (JStr r)]
  /\ statusCode (snd (run cfg w request)) = 200.
Proof.
  intros Hup Hstt Hblank Hllm Htts Hok. open_world.
  destruct (text r3) as [e|m] eqn:Htext; exec; repeat split;
    try reflexivity.
  - eexists. split; [reflexivity|]. intros m [=].
  - eexists. split; [reflexivity|]. now intros m' [= <-].
Qed.

Lemma tts_failure_returns_nothing_witness :
  fst (run Scenario.cfg
         {| now := Scenario.steady;
            network := Scenario.serve Scenario.stt_ok Scenario.llm_ok
                         (Scenario.error_reply 500 (lit "voice missing")) |}
         Scenario.recording)
  = inl (Error (lit "TTS service error: voice missing")).
Proof.
  destruct (tts_failure_returns_nothing Scenario.cfg
              {| now := Scenario.steady;
                 network := Scenario.serve Scenario.stt_ok Scenario.llm_ok
                              (Scenario.error_reply 500
                                 (lit "voice missing")) |}
              Scenario.recording (Some (lit "recording.webm"))
              [x1a; x45; xdf; xa3] (lit "hello there")
              (lit "Hi! How can I help?")
              {| status := 500; text := inr (lit "voice missing");
                 json := Scenario.unread; arrayBuffer := Scenario.unread |})
    as ((e & He & Hm) & _).
  - reflexivity.
  - eexists; eexists; repeat split; reflexivity.
  - reflexivity.
  - eexists; eexists; repeat split; reflexivity.
  - reflexivity.
  - reflexivity.
  - rewrite He. now rewrite (Hm _ eq_refl).
Defined.

(** Case analysis in the order of evaluation: what a stage has pending is
    settled before the next stage's call is looked at. *)
Ltac ask_next :=
  match goal with
  | |- ?lhs = _ -> _ =>
      match lhs with
      | context [file ?r] => destruct (file r) as [?|[[? ?]|]] eqn:?
      | context [match ?x with inl _ => _ | inr _ => _ end] =>
          is_var x; destruct x
      | context [interpolate ?v] => destruct (interpolate v) as [?|[]] eqn:?
      | context [call_trim ?v] => destruct (call_trim v) eqn:?
      | context [truthy ?s] => destruct (truthy s) eqn:?
      | context [blank ?s] => destruct (blank s) eqn:?
      | context [call_substring0 ?n ?v] =>
          destruct (call_substring0 n v) eqn:?
      | context [ok ?r] => destruct (ok r) eqn:?
      | context [text ?r] => destruct (text r) eqn:?
      | context [json ?r] => destruct (json r) eqn:?
      | context [arrayBuffer ?r] => destruct (arrayBuffer r) eqn:?
      | context [member ?k ?d] => destruct (member k d) eqn:?
      | context [network ?w ?rq] => destruct (network w rq) eqn:?
      end
  end.

Ltac every_run :=
  match goal with
  | |- context [run ?cfg ?w ?request] =>
      let res := fresh "res" in
      let st := fresh "st" in
      let Hrun := fresh "Hrun" in
      destruct (run cfg w request) as [res st] eqn:Hrun; revert Hrun
  end;
  repeat first [ progress unfold_handler
               | use_world
               | progress (cbn [negb app call_trim call_substring0
                                interpolate stringifiable])
               | ask_next ];
  intros [= <- <-]; cbn [fst snd calls log statusCode ticks events].

Ltac narrow_strings :=
  repeat match goal with
         | H : call_trim ?v = inr _ |- _ =>
             is_var v; destruct v; try discriminate H
         | H : call_substring0 _ ?v = inr _ |- _ =>
             is_var v; destruct v; try discriminate H
         | H : call_trim (JStr _) = inr _ |- _ =>
             cbn [call_trim] in H; injection H as <-
         | H : call_substring0 _ (JStr _) = inr _ |- _ =>
             cbn [call_substring0] in H; injection H as <-
         | H : truthy (trim ?s) = true |- _ =>
             assert (blank s = false)
               by (rewrite <- trim_falsy_iff_blank, H; reflexivity);
             clear H
         end.

(** X3.  Whenever a run calls the LLM, the request carried a file whose
    content could be read, STT answered with a string transcript that is
    not blank, and the prompt sent is exactly that transcript: it is tested
    with [trim()] but forwarded untrimmed. *)
Theorem llm_called_only_with_transcript cfg w request rq :
  In rq (calls (snd (run cfg w request))) ->
  stage_of cfg rq = Some LLM ->
  exists name audio t,
    uploaded request name audio
    /\ returns_text (network w (stt_request cfg audio (hint name)))
         (lit "text") t
    /\ blank t = false
    /\ rq = llm_request cfg (JStr t).
Proof.
  every_run.
  all: cbn [In]; intros Hin Hstage.
  all: repeat (destruct Hin as [<-|Hin]); try contradiction.
  all: rewrite ?stage_of_stt_request, ?stage_of_tts_request in Hstage;
    try discriminate Hstage.
  all: narrow_strings.
  all: do 3 eexists; split; [eassumption|]; split;
    [do 2 eexists; repeat split; eassumption|]; split;
    [assumption|reflexivity].
Qed.

(** X4.  Whenever a run calls TTS, the LLM was called in that run and
    answered with a string reply, and the call is the POST to TTS's
    [/synthesize] whose JSON body has the one member [text], holding exactly
    that reply, whole (only the log line keeps its first 100 code
    units). *)
Theorem tts_called_only_with_reply cfg w request rq :
  In rq (calls (snd (run cfg w request))) ->
  stage_of cfg rq = Some TTS ->
  exists t r,
    In (llm_request cfg (JStr t)) (calls (snd (run cfg w request)))
    /\ returns_text (network w (llm_request cfg (JStr t))) (lit "response") r
    /\ rq = {| url := TTS_SERVICE_URL cfg ++ lit "/synthesize";
               method := lit "POST";
               headers := [(lit "Content-Type", lit "application/json")];
               body := JSONText (JObj [(lit "text", JStr r)]) |}.
Proof.
  every_run.
  all: cbn [In]; intros Hin Hstage.
  all: repeat (destruct Hin as [<-|Hin]); try contradiction.
  all: rewrite ?stage_of_stt_request, ?stage_of_llm_request in Hstage;
    try discriminate Hstage.
  all: narrow_strings.
  all: do 2 eexists; split; [right; left; reflexivity|]; split;
    [do 2 eexists; repeat split; eassumption|reflexivity].
Qed.

(** X5.  The outbound calls of any run are a prefix of STT, LLM, TTS: each
    collaborator is called at most once, nothing is retried, no stage is
    skipped and none runs before the one it depends on. *)
Theorem calls_in_stage_order cfg w request :
  exists n,
    map (stage_of cfg) (calls (snd (run cfg w request)))
    = firstn n [Some STT; Some LLM; Some TTS].
Proof.
  every_run.
  all: cbn [map];
    rewrite ?stage_of_stt_request, ?stage_of_llm_request,
      ?stage_of_tts_request.
  all: first [ now exists 0%nat | now exists 1%nat | now exists 2%nat
             | now exists 3%nat ].
Qed.

(** The trace of a run agrees with what is counted beside it: the calls
    in it are the outbound calls, and the readings in it are numbered from
    0 without a gap. *)
Lemma events_agree cfg w request :
  flat_map (fun ev => match ev with
                      | Sent rq => [rq]
                      | Clock _ => []
                      end) (events (snd (run cfg w request)))
  = calls (snd (run cfg w request))
  /\ flat_map (fun ev => match ev with
                         | Clock k => [k]
                         | Sent _ => []
                         end) (events (snd (run cfg w request)))
     = seq 0 (ticks (snd (run cfg w request))).
Proof.
  every_run.
  all: split; reflexivity.
Qed.

Lemma run_body_inv cfg w request body :
  fst (run cfg w request) = inr body ->
  exists name audio t r b,
    uploaded request name audio
    /\ returns_text (network w (stt_request cfg audio (hint name)))
         (lit "text") t
    /\ blank t = false
    /\ returns_text (network w (llm_request cfg (JStr t))) (lit "response") r
    /\ returns_bytes (network w (tts_request cfg (JStr r))) b
    /\ body = JObj [(lit "transcription", JStr t);
                    (lit "response", JStr r);
                    (lit "audioBase64", JStr (Base64.encode b))]
    /\ statusCode (snd (run cfg w request)) = 200.
Proof.
  every_run.
  all: intros [= <-].
  narrow_strings.
  do 5 eexists. split; [eassumption|]. split;
    [do 2 eexists; repeat split; eassumption|]. split; [assumption|].
  split; [do 2 eexists; repeat split; eassumption|]. split;
    [eexists; repeat split; eassumption|]. split; reflexivity.
Qed.

(** X6.  A reply body is returned only on full success: if the handler
    returns a body, then the file was there, STT returned a non-blank
    string, the LLM a string and TTS its bytes, the body is made of exactly
    these three values, and the status code is the default. *)
Theorem body_only_on_full_success cfg w request body :
  fst (run cfg w request) = inr body ->
  exists name audio t r b,
    uploaded request name audio
    /\ returns_text (network w (stt_request cfg audio (hint name)))
         (lit "text") t
    /\ blank t = false
    /\ returns_text (network w (llm_request cfg (JStr t))) (lit "response") r
    /\ returns_bytes (network w (tts_request cfg (JStr r))) b
    /\ body = JObj [(lit "transcription", JStr t);
                    (lit "response", JStr r);
                    (lit "audioBase64", JStr (Base64.encode b))]
    /\ statusCode (snd (run cfg w request)) = 200.
Proof. exact (run_body_inv cfg w request body). Qed.

(** Bring a second description of the same request and answers in line
    with the one the case analysis recorded. *)
Ltac align_upload :=
  match goal with
  | Hup : uploaded ?rq ?n ?a, H : file ?rq = inr (Some {| filename := ?n0; toBuffer := inr ?a0 |}) |- _ =>
      unfold uploaded in Hup;
      assert (n = n0) by congruence; assert (a = a0) by congruence;
      subst n a; clear Hup
  | Hup : uploaded ?rq _ _, H : file ?rq = _ |- _ =>
      unfold uploaded in Hup; congruence
  end.

(** X7.  The handler leaves the status code at 200 or sets it to 400,
    and it sets 400 in exactly two cases: the request has no file part, or
    STT returned a blank transcript.  No failure of a collaborator, of the
    upload or of a malformed answer changes the status code. *)
Theorem status_400_iff_policy_rejection cfg w request :
  (statusCode (snd (run cfg w request)) = 200
   \/ statusCode (snd (run cfg w request)) = 400)
  /\ (statusCode (snd (run cfg w request)) = 400 <->
      file request = inr None
      \/ exists name audio t,
           uploaded request name audio
           /\ returns_text (network w (stt_request cfg audio (hint name)))
                (lit "text") t
           /\ blank t = true).
Proof.
  every_run.
  all: split; [auto|].
  all: split;
    [ intros Hcode; try discriminate Hcode
    | intros [Hnone
             | (name' & audio' & t' & Hup & (r' & d' & Hn & Hok & Hj & Hm)
                & Hb)];
      try reflexivity; exfalso ].
  all: try discriminate.
  all: try (left; reflexivity).
  all: try (align_upload; unfold hint in *; same_answer; try congruence;
            narrow_strings; cbn in *; congruence).
  narrow_strings. right. do 3 eexists. split; [eassumption|]. split.
  - do 2 eexists. repeat split; eassumption.
  - rewrite <- trim_falsy_iff_blank.
    match goal with H : truthy _ = false |- _ => rewrite H end. reflexivity.
Qed.

(** X8.  An error thrown once the file has been read is logged exactly
    once, as the last log line, before it is rethrown; an error before that
    (no file part, a failing [request.file()] or [toBuffer()]) is thrown
    with nothing logged and nothing sent; a successful run logs no
    error. *)
Theorem pipeline_errors_logged_once cfg w request :
  (forall name audio e,
     uploaded request name audio ->
     fst (run cfg w request) = inl e ->
     exists before,
       log (snd (run cfg w request)) = before ++ [LogError e]
       /\ errors_logged before = [])
  /\ ((forall name audio, ~ uploaded request name audio) ->
      (exists e, fst (run cfg w request) = inl e)
      /\ log (snd (run cfg w request)) = []
      /\ calls (snd (run cfg w request)) = [])
  /\ (forall body,
        fst (run cfg w request) = inr body ->
        errors_logged (log (snd (run cfg w request))) = []).
Proof.
  every_run.
  all: split; [intros name' audio' e' Hup [= <-]|split;
                 [intros Hnot|intros body' [= <-]]].
  all: try (unfold uploaded in Hup; congruence).
  all: try (exfalso; eapply Hnot; unfold uploaded; eassumption).
  all: try (repeat split; try reflexivity; eexists; reflexivity).
  all: try reflexivity.
  all: match goal with
       | |- exists before, ?l = _ /\ _ =>
           exists (removelast l); split; reflexivity
       end.
Qed.

Lemma startsWith_iff (s p : jsstring) :
  startsWith s p = true <-> exists rest, s = p ++ rest.
Proof.
  revert s. induction p as [|y p IH]; intros s; simpl.
  - split; [intros _; now exists s|intros _; destruct s; reflexivity].
  - destruct s as [|x s]; simpl.
    + split; [discriminate|]. intros [rest H]. discriminate H.
    + rewrite andb_true_iff, N.eqb_eq, IH. split.
      * intros [-> [rest ->]]. now exists rest.
      * intros [rest [= -> ->]]. split; [reflexivity|now exists rest].
Qed.

(** X9.  The not-found handler answers 404 with [{error: "Not found"}]
    exactly for the URLs that start with ["/api/"] or with ["/health"], and
    hands every other URL [index.html]: so ["/api"] without the slash gets
    the page, and ["/healthz"] gets the 404. *)
Theorem not_found_routes (url_ : jsstring) :
  ((exists rest, url_ = lit "/api/" ++ rest)
   \/ (exists rest, url_ = lit "/health" ++ rest) ->
   notFoundHandler url_
   = ReplyJSON 404 (JObj [(lit "error", JStr (lit "Not found"))]))
  /\ (~ ((exists rest, url_ = lit "/api/" ++ rest)
         \/ (exists rest, url_ = lit "/health" ++ rest)) ->
      notFoundHandler url_ = SendFile (lit "index.html")).
Proof.
  unfold notFoundHandler.
  destruct (startsWith url_ (lit "/api/")) eqn:Ea;
    destruct (startsWith url_ (lit "/health")) eqn:Eh; cbn [negb andb];
    split; try reflexivity.
  all: try (intros H; exfalso; apply H).
  all: try (left; now apply startsWith_iff).
  all: try (right; now apply startsWith_iff).
  intros [H|H]; apply startsWith_iff in H; congruence.
Qed.

(** X10.  For the configuration an environment variable set to the empty
    string counts as unset, and whatever the environment is, the three
    service URLs and the model name are never empty. *)
Theorem config_empty_is_unset (env : jsstring -> option jsstring) :
  load_config (without_empty env) = load_config env
  /\ STT_SERVICE_URL (load_config env) <> []
  /\ LLM_SERVICE_URL (load_config env) <> []
  /\ TTS_SERVICE_URL (load_config env) <> []
  /\ LLM_MODEL (load_config env) <> [].
Proof.
  unfold load_config, without_empty. cbn [STT_SERVICE_URL LLM_SERVICE_URL
    TTS_SERVICE_URL LLM_MODEL].
  destruct (env (lit "STT_SERVICE_URL")) as [[|? ?]|];
    destruct (env (lit "LLM_SERVICE_URL")) as [[|? ?]|];
    destruct (env (lit "TTS_SERVICE_URL")) as [[|? ?]|];
    destruct (env (lit "LLM_MODEL")) as [[|? ?]|];
    cbn [or_default truthy]; repeat split; try reflexivity;
    try discriminate; vm_compute; discriminate.
Qed.

(* ===================================================================== *)
(** ** The client reads back what the server encoded *)
(* ===================================================================== *)

Module AtobFacts.
Import Base64 Base64Facts Atob.

Local Open Scope N_scope.

Lemma encode_split (bs : list byte) :
  encode bs = map alphabet (sextets_of bs) ++ repeat pad (pad_count bs).
Proof.
  induction bs as [|a|a b|a b c r IH] using by_triples; try reflexivity.
  cbn [encode sextets_of pad_count map app]. now rewrite IH.
Qed.

Lemma sextets_of_range (bs : list byte) :
  Forall (fun v => v < 64) (sextets_of bs).
Proof.
  induction bs as [|a|a b|a b c r IH] using by_triples.
  - constructor.
  - byte_facts a. cbn [sextets_of]. repeat constructor; assumption.
  - byte_facts a. byte_facts b. pair_facts a b.
    cbn [sextets_of]. repeat constructor; assumption.
  - byte_facts a. byte_facts b. byte_facts c.
    pair_facts a b. pair_facts b c.
    cbn [sextets_of]. repeat (constructor; [assumption|]). exact IH.
Qed.

(** The sextets come in fours, with a rest of two or three exactly when
    two or one [=] follow. *)
Lemma sextets_of_length (bs : list byte) :
  exists m,
    (List.length (sextets_of bs) = 4 * m /\ pad_count bs = 0)%nat
    \/ (List.length (sextets_of bs) = 4 * m + 2 /\ pad_count bs = 2)%nat
    \/ (List.length (sextets_of bs) = 4 * m + 3 /\ pad_count bs = 1)%nat.
Proof.
  induction bs as [|a|a b|a b c r [m IH]] using by_triples.
  - exists 0%nat. left. split; reflexivity.
  - exists 0%nat. right. left. split; reflexivity.
  - exists 0%nat. right. right. split; reflexivity.
  - exists (S m). cbn [sextets_of pad_count List.length]. lia.
Qed.

Lemma bytes_of_sextets_of (bs : list byte) :
  bytes_of_sextets (sextets_of bs) = map Byte.to_N bs.
Proof.
  induction bs as [|a|a b|a b c r IH] using by_triples.
  - reflexivity.
  - byte_facts a. cbn [sextets_of bytes_of_sextets map].
    repeat match goal with
           | H : ?l = _ |- context [?l] => rewrite H
           end. reflexivity.
  - byte_facts a. byte_facts b. pair_facts a b.
    cbn [sextets_of bytes_of_sextets map].
    repeat match goal with
           | H : ?l = _ |- context [?l] => rewrite H
           end. reflexivity.
  - byte_facts a. byte_facts b. byte_facts c.
    pair_facts a b. pair_facts b c.
    cbn [sextets_of bytes_of_sextets map]. rewrite IH.
    repeat match goal with
           | H : ?l = _ |- context [?l] => rewrite H
           end. reflexivity.
Qed.

Lemma of_nat_mod4 (n m k : nat) :
  (n = 4 * m + k)%nat -> (k < 4)%nat -> N.of_nat n mod 4 = N.of_nat k.
Proof.
  intros -> Hk. symmetry. apply (N.mod_unique _ 4 (N.of_nat m)); lia.
Qed.

Lemma alphabet_not_space (v : N) :
  v < 64 -> isAsciiWhitespace (alphabet v) = false.
Proof.
  intros Hv.
  pose proof (forall_below 64
                (fun v => negb (isAsciiWhitespace (alphabet v)))) as H.
  specialize (H ltac:(vm_compute; reflexivity) v Hv). cbv beta in H.
  now apply negb_true_iff.
Qed.

Lemma filter_all {A} (f : A -> bool) (l : list A) :
  forallb f l = true -> filter f l = l.
Proof.
  induction l as [|x l IH]; simpl; [reflexivity|].
  intros H. apply andb_true_iff in H. destruct H as [-> H].
  now rewrite IH.
Qed.

Lemma no_space_in_sextets (sx : list N) (k : nat) :
  Forall (fun v => v < 64) sx ->
  filter (fun c => negb (isAsciiWhitespace c))
    (map alphabet sx ++ repeat pad k)
  = map alphabet sx ++ repeat pad k.
Proof.
  intros H. apply filter_all. rewrite forallb_app. apply andb_true_iff. split.
  - induction H as [|v sx Hv _ IH]; simpl; [reflexivity|].
    now rewrite alphabet_not_space, IH.
  - induction k; simpl; [reflexivity|exact IHk].
Qed.

Lemma sextets_alphabet (sx : list N) :
  Forall (fun v => v < 64) sx -> sextets (map alphabet sx) = Some sx.
Proof.
  induction 1 as [|v sx Hv _ IH]; simpl; [reflexivity|].
  destruct (sextet_alphabet v Hv) as [-> _]. now rewrite IH.
Qed.

(** The last character written for a sextet is no [=]. *)
Lemma rev_alphabet_head (sx : list N) :
  Forall (fun v => v < 64) sx ->
  match rev (map alphabet sx) with
  | [] => sx = []
  | c :: _ => (c =? pad) = false
  end.
Proof.
  intros H. destruct sx as [|v sx] using rev_ind; [reflexivity|].
  rewrite map_app, rev_app_distr. simpl.
  apply Forall_app in H. destruct H as [_ H]. inversion H; subst.
  now apply sextet_alphabet.
Qed.

Lemma strip_padding_encode (sx : list N) (k : nat) (m : nat) :
  Forall (fun v => v < 64) sx ->
  ((List.length sx = 4 * m /\ k = 0)
   \/ (List.length sx = 4 * m + 2 /\ k = 2)
   \/ (List.length sx = 4 * m + 3 /\ k = 1))%nat ->
  strip_padding (map alphabet sx ++ repeat pad k) = map alphabet sx.
Proof.
  intros Hsx Hlen. unfold strip_padding.
  assert (Hmod : N.of_nat (List.length (map alphabet sx ++ repeat pad k))
                 mod 4 = 0).
  { rewrite length_app, length_map, repeat_length.
    destruct Hlen as [[H ->]|[[H ->]|[H ->]]].
    - apply (of_nat_mod4 _ m 0); lia.
    - apply (of_nat_mod4 _ (S m) 0); lia.
    - apply (of_nat_mod4 _ (S m) 0); lia. }
  rewrite Hmod. cbn [N.eqb]. rewrite rev_app_distr.
  pose proof (rev_alphabet_head sx Hsx) as Hhead.
  destruct Hlen as [[H ->]|[[H ->]|[H ->]]]; cbn [repeat rev app].
  - rewrite app_nil_r. destruct (rev (map alphabet sx)) as [|c1 [|c2 r]].
    + subst sx. reflexivity.
    + now rewrite Hhead.
    + now rewrite Hhead.
  - cbn [N.eqb pad Pos.eqb]. now rewrite rev_involutive.
  - destruct (rev (map alphabet sx)) as [|c r] eqn:E.
    + subst sx. simpl in H. lia.
    + cbn [app]. change (pad =? pad) with true. cbv iota. rewrite Hhead.
      change (rev r ++ [c]) with (rev (c :: r)).
      rewrite <- E. now rewrite rev_involutive.
Qed.

End AtobFacts.

Lemma firstn_succ_nth {A} (d : A) (l : list A) (k : nat) :
  (k < List.length l)%nat -> firstn (S k) l = firstn k l ++ [nth k l d].
Proof.
  revert k. induction l as [|x l IH]; intros k Hk; simpl in Hk; [lia|].
  destruct k; [reflexivity|]. simpl. f_equal. apply IH. lia.
Qed.

(** The loop that copies the binary string into the typed array. *)
Lemma copy_loop (binaryString : jsstring) :
  fold_left (fun bytes i =>
               write_at i (Base64.byte_of (nth i binaryString 0%N)) bytes)
    (seq 0 (List.length binaryString))
    (repeat x00 (List.length binaryString))
  = map Base64.byte_of binaryString.
Proof.
  set (n := List.length binaryString).
  assert (H : forall k, (k <= n)%nat ->
            fold_left (fun bytes i =>
                         write_at i (Base64.byte_of (nth i binaryString 0%N))
                           bytes)
              (seq 0 k) (repeat x00 n)
            = map Base64.byte_of (firstn k binaryString)
              ++ repeat x00 (n - k)).
  { induction k as [|k IH]; intros Hk.
    - simpl. now rewrite Nat.sub_0_r.
    - rewrite (firstn_succ_nth 0%N) by (subst n; lia).
      rewrite map_app, <- app_assoc.
      rewrite seq_S, fold_left_app, IH by lia. cbn [fold_left Nat.add].
      unfold write_at.
      assert (Hlen : List.length (map Base64.byte_of (firstn k binaryString))
                     = k)
        by (rewrite length_map, length_firstn; subst n; lia).
      rewrite skipn_app, Hlen, Nat.sub_diag.
      rewrite (skipn_all2 (map _ _)) by lia.
      replace (n - k)%nat with (S (n - S k)) by lia. cbn [skipn repeat app].
      rewrite firstn_app, Hlen, Nat.sub_diag. cbn [firstn].
      rewrite (firstn_all2 (map _ _)) by lia. rewrite app_nil_r.
      reflexivity. }
  rewrite (H n (le_n n)). subst n.
  now rewrite firstn_all, Nat.sub_diag, app_nil_r.
Qed.

Section ClientFacts.

Variable API_BASE_URL : jsstring.
Variable w : World.
Variable atob_message : jsstring.
Variable fault_message : EngineFault -> jsstring.
Variable number_to_string : Z -> jsstring.

(** [atob] applied to the base64 text of a buffer gives the binary string
    of the buffer. *)
Lemma atob_encode (bs : list byte) :
  atob atob_message (Base64.encode bs) = inr (map Byte.to_N bs).
Proof.
  unfold atob. rewrite AtobFacts.encode_split.
  pose proof (AtobFacts.sextets_of_range bs) as Hr.
  destruct (AtobFacts.sextets_of_length bs) as [m Hlen].
  rewrite (AtobFacts.no_space_in_sextets _ _ Hr).
  rewrite (AtobFacts.strip_padding_encode _ _ m Hr Hlen).
  rewrite length_map.
  assert (Hmod : (N.of_nat (List.length (Atob.sextets_of bs)) mod 4 =? 1)%N
                 = false).
  { apply N.eqb_neq.
    destruct Hlen as [[H _]|[[H _]|[H _]]].
    - rewrite (AtobFacts.of_nat_mod4 _ m 0); [discriminate|lia|lia].
    - rewrite (AtobFacts.of_nat_mod4 _ m 2); [discriminate|lia|lia].
    - rewrite (AtobFacts.of_nat_mod4 _ m 3); [discriminate|lia|lia]. }
  rewrite Hmod, (AtobFacts.sextets_alphabet _ Hr).
  now rewrite AtobFacts.bytes_of_sextets_of.
Qed.

Lemma map_byte_of_to_N (bs : list byte) :
  map Base64.byte_of (map Byte.to_N bs) = bs.
Proof.
  induction bs as [|b bs IH]; simpl; [reflexivity|].
  now rewrite Base64Facts.byte_of_to_N, IH.
Qed.

Lemma base64ToAudioUrl_encode (audio : Buffer) (mimeType : option jsstring) :
  base64ToAudioUrl atob_message (Base64.encode audio) mimeType
  = inr {| blob_bytes := audio;
           blob_type := match mimeType with
                        | Some m => m
                        | None => lit "audio/wav"
                        end |}.
Proof.
  unfold base64ToAudioUrl. rewrite atob_encode, copy_loop.
  now rewrite map_byte_of_to_N.
Qed.

(** X11.  The client undoes the server's encoding: [base64ToAudioUrl] of
    the base64 text [Buffer.toString("base64")] gives for a buffer is a blob
    of exactly the buffer's bytes, of type ["audio/wav"] unless a type is
    given. *)
Theorem audio_url_round_trip (audio : Buffer) (mimeType : option jsstring) :
  base64ToAudioUrl atob_message (Base64.encode audio) mimeType
  = inr {| blob_bytes := audio;
           blob_type := match mimeType with
                        | Some m => m
                        | None => lit "audio/wav"
                        end |}.
Proof. exact (base64ToAudioUrl_encode audio mimeType). Qed.

Lemma sextets_illegal (data : jsstring) (c : N) :
  In c data -> Base64.sextet c = None -> Atob.sextets data = None.
Proof.
  induction data as [|x data IH]; intros Hin Hc; [contradiction|].
  simpl. destruct Hin as [->|Hin].
  - now rewrite Hc.
  - rewrite (IH Hin Hc). now destruct (Base64.sextet x).
Qed.

Lemma strip_padding_keeps (data : jsstring) (c : N) :
  In c data -> c <> Base64.pad -> In c (Atob.strip_padding data).
Proof.
  intros Hin Hc. unfold Atob.strip_padding.
  destruct (_ =? 0)%N; [|exact Hin].
  apply in_rev in Hin.
  destruct (rev data) as [|c1 [|c2 r]] eqn:E.
  - contradiction.
  - destruct (N.eqb_spec c1 Base64.pad) as [->|_].
    + destruct Hin as [<-|[]]. congruence.
    + apply in_rev. now rewrite E.
  - destruct (N.eqb_spec c1 Base64.pad) as [->|_].
    + destruct Hin as [<-|Hin]; [congruence|].
      destruct (N.eqb_spec c2 Base64.pad) as [->|_].
      * destruct Hin as [<-|Hin]; [congruence|]. now apply -> in_rev.
      * now apply -> in_rev.
    + apply in_rev. now rewrite E.
Qed.

(** X12.  [base64ToAudioUrl] makes no blob from a text that holds a
    character which is neither of the base64 alphabet, nor ASCII
    whitespace, nor [=]: it throws the [InvalidCharacterError] of
    [atob]. *)
Theorem audio_url_rejects_illegal_text (base64 : jsstring) (c : N)
  (mimeType : option jsstring) :
  In c base64 ->
  Base64.sextet c = None ->
  Atob.isAsciiWhitespace c = false ->
  c <> Base64.pad ->
  base64ToAudioUrl atob_message base64 mimeType
  = inl (Thrown (lit "InvalidCharacterError") atob_message).
Proof.
  intros Hin Hc Hws Hpad. unfold base64ToAudioUrl, atob.
  assert (H : In c (Atob.strip_padding
                      (filter (fun c => negb (Atob.isAsciiWhitespace c))
                         base64))).
  { apply strip_padding_keeps; [|exact Hpad].
    apply filter_In. split; [exact Hin|]. now rewrite Hws. }
  rewrite (sextets_illegal _ _ H Hc). now destruct (_ =? 1)%N.
Qed.

(** Unfold the client's code as far as the browser's answers are known. *)
Ltac unfold_client :=
  cbv beta iota zeta delta
    [handleToggleRecording exchange sendAudioMessage chat_request fetch Date_now bind
     ret throw await log_info log_error message_of
     messages recordingState error
     ticks calls log statusCode events fst snd].

Ltac run_client :=
  repeat first [ progress unfold_client
               | match goal with
                 | H : ?l = _ |- context [?l] => rewrite H
                 end
               | progress (cbn [negb app to_string]) ].

(** X13.  [sendAudioMessage] makes exactly one call, a POST to
    [API_BASE_URL + "/api/chat"] with the blob as form part ["audio"] under
    the filename ["recording.webm"].  It rethrows a transport failure as it
    is, turns a non-success answer into
    ["Failed to send message: " + body text], and otherwise returns what
    parsing the body as JSON gives. *)
Theorem send_audio_message (audioBlob : Blob) (s : State) :
  let rq := {| url := API_BASE_URL ++ lit "/api/chat";
               method := lit "POST";
               headers := [];
               body := FormData [{| part_name := lit "audio";
                                    part_blob := blob_bytes audioBlob;
                                    part_filename := lit "recording.webm" |}]
            |} in
  calls (snd (sendAudioMessage API_BASE_URL w audioBlob s)) = calls s ++ [rq]
  /\ (forall e, network w rq = Rejects e ->
                fst (sendAudioMessage API_BASE_URL w audioBlob s) = inl e)
  /\ (forall r m, network w rq = Resolves r -> ok r = false ->
                  text r = inr m ->
                  fst (sendAudioMessage API_BASE_URL w audioBlob s)
                  = inl (Error (lit "Failed to send message: " ++ m)))
  /\ (forall r, network w rq = Resolves r -> ok r = true ->
                fst (sendAudioMessage API_BASE_URL w audioBlob s) = json r).
Proof.
  intros rq. subst rq. repeat split.
  - unfold_client. destruct (network w _) as [e|r]; [reflexivity|].
    destruct (ok r); cbn [negb].
    + now destruct (json r).
    + now destruct (text r).
  - intros e H. run_client. reflexivity.
  - intros r m H Hok Ht. run_client. reflexivity.
  - intros r H Hok. run_client. now destruct (json r).
Qed.

Local Abbreviation toggle :=
  (handleToggleRecording API_BASE_URL w atob_message fault_message
     number_to_string).

Ltac ask_browser :=
  match goal with
  | |- context [stopRecording ?r] =>
      destruct (stopRecording r) as [?|[?|]] eqn:?
  | |- context [Nat.eqb (size ?b) 0] => destruct (Nat.eqb (size b) 0) eqn:?
  | |- context [ok ?r] => destruct (ok r) eqn:?
  | |- context [text ?r] => destruct (text r) eqn:?
  | |- context [json ?r] => destruct (json r) eqn:?
  | |- context [base64ToAudioUrl ?m ?b ?t] =>
      destruct (base64ToAudioUrl m b t) eqn:?
  | |- context [to_string ?n ?v] => destruct (to_string n v) eqn:?
  | |- context [member ?k ?d] => destruct (member k d) eqn:?
  | |- context [network ?w ?rq] => destruct (network w rq) eqn:?
  end.

Ltac every_toggle :=
  repeat first [ progress unfold_client
               | progress (cbn [negb app])
               | ask_browser ].

(** X14.  A toggle while recording, once [stopRecording()] and the
    upload have settled, appends both messages or none.  Either the error
    is cleared, nothing is written to the console and exactly two messages
    were appended: a user message without audio whose text is the
    [transcription] of the server's answer, then an agent message whose text
    is the [response] of that answer and whose audio is decoded from its
    [audioBase64].  Or the conversation is unchanged, the error shown is the
    message of what was thrown, and that is written to the console once.  In
    both cases the state shown is ['idle'].  A toggle while not recording
    clears the error, shows ['recording'] and runs [startRecording()];
    however that settles, the state shown stays ['recording']. *)
Theorem toggle_all_or_nothing (recorder : Recorder) (app : AppState)
  (s : State) :
  if isRecording recorder then
    recordingState (fst (toggle recorder app s)) = Types.idle
    /\ ((error (fst (toggle recorder app s)) = None
         /\ exists audioBlob r body u a base64 blob,
              stopRecording recorder = inr (Some audioBlob)
              /\ size audioBlob <> 0%nat
              /\ network w (chat_request API_BASE_URL audioBlob) = Resolves r
              /\ ok r = true
              /\ json r = inr body
              /\ messages (fst (toggle recorder app s))
                 = messages app ++ [u; a]
              /\ Types.type u = Types.user
              /\ member (lit "transcription") body = inr (Types.text u)
              /\ Types.audioUrl u = None
              /\ Types.type a = Types.agent
              /\ member (lit "response") body = inr (Types.text a)
              /\ member (lit "audioBase64") body = inr base64
              /\ match to_string number_to_string base64 with
                 | inr b64 => base64ToAudioUrl atob_message b64 None
                 | inl e => inl e
                 end = inr blob
              /\ Types.audioUrl a = Some blob
              /\ log (snd (toggle recorder app s)) = log s)
        \/ (exists err,
              error (fst (toggle recorder app s)) = Some (message_of
                                                           fault_message err)
              /\ messages (fst (toggle recorder app s)) = messages app
              /\ log (snd (toggle recorder app s)) = log s ++ [LogError err]))
  else
    fst (toggle recorder app s)
    = {| messages := messages app;
         recordingState := Types.recording;
         error := None |}
    /\ snd (toggle recorder app s) = snd (startRecording recorder s).
Proof.
  destruct (isRecording recorder) eqn:Hrec.
  - unfold handleToggleRecording. rewrite Hrec. every_toggle.
    all: split; [reflexivity|].
    all: first [ right; eexists; repeat split; reflexivity
               | left; split; [reflexivity|] ].
    do 7 eexists.
    repeat match goal with
           | |- _ /\ _ => split
           | |- size _ <> _ => apply Nat.eqb_neq; eassumption
           | |- _ => eassumption
           | |- _ => reflexivity
           | |- _ => cbn [Types.text Types.type Types.audioUrl]
           end.
    match goal with H : to_string _ _ = _ |- _ => rewrite H end.
    eassumption.
  - unfold handleToggleRecording. rewrite Hrec.
    destruct (startRecording recorder s) as [res s'] eqn:Hstart.
    split; reflexivity.
Qed.

Lemma toggle_empty (recorder : Recorder) (app : AppState)
  (s : State) :
  isRecording recorder = true ->
  stopRecording recorder = inr None
  \/ (exists b, stopRecording recorder = inr (Some b) /\ size b = 0%nat) ->
  calls (snd (toggle recorder app s)) = calls s
  /\ fst (toggle recorder app s)
     = {| messages := messages app;
          recordingState := Types.idle;
          error := Some (lit "No audio recorded") |}.
Proof.
  intros Hrec [Hstop|(b & Hstop & Hsize)]; unfold handleToggleRecording;
    rewrite Hrec; unfold exchange, bind, await, throw, ret; rewrite Hstop;
    rewrite ?Hsize; split; reflexivity.
Qed.

(** X15.  When [stopRecording()] gives [null] or a blob of size 0, the
    callback sends nothing to the server and shows ["No audio recorded"],
    with the conversation unchanged. *)
Theorem empty_recording_is_not_sent (recorder : Recorder) (app : AppState)
  (s : State) :
  isRecording recorder = true ->
  stopRecording recorder = inr None
  \/ (exists b, stopRecording recorder = inr (Some b) /\ size b = 0%nat) ->
  calls (snd (toggle recorder app s)) = calls s
  /\ fst (toggle recorder app s)
     = {| messages := messages app;
          recordingState := Types.idle;
          error := Some (lit "No audio recorded") |}.
Proof. exact (toggle_empty recorder app s). Qed.

(** X16.  When the server answers the upload with a non-success status,
    the error shown is ["Failed to send message: "] followed by the body
    of the answer, no message is appended, and the upload was the only
    call. *)
Theorem server_error_is_shown (recorder : Recorder) (app : AppState)
  (s : State) (audioBlob : Blob) (r : Response) (m : jsstring) :
  isRecording recorder = true ->
  stopRecording recorder = inr (Some audioBlob) ->
  size audioBlob <> 0%nat ->
  network w (chat_request API_BASE_URL audioBlob) = Resolves r ->
  ok r = false ->
  text r = inr m ->
  fst (toggle recorder app s)
  = {| messages := messages app;
       recordingState := Types.idle;
       error := Some (lit "Failed to send message: " ++ m) |}
  /\ calls (snd (toggle recorder app s))
     = calls s ++ [chat_request API_BASE_URL audioBlob].
Proof.
  intros Hrec Hstop Hsize Hnet Hok Htext.
  apply Nat.eqb_neq in Hsize.
  unfold handleToggleRecording. rewrite Hrec.
  unfold exchange, sendAudioMessage, fetch, bind, await, throw, ret.
  rewrite Hstop, Hsize, Hnet, Hok. cbn [negb]. rewrite Htext.
  split; reflexivity.
Qed.

(** X17.  The client against the server: when the JSON of a 2xx answer
    is the body a run of the chat handler returned, the two messages
    appended carry that run's values: the user message the transcript STT
    returned in it, the agent message the reply the LLM returned to that
    transcript, and as audio the very bytes TTS returned for that reply. *)
Theorem exchange_end_to_end (cfg : Config) (ws : World) (request : Request)
  (body : JsValue) (recorder : Recorder) (app : AppState) (s : State)
  (audioBlob : Blob) (r : Response) :
  fst (run cfg ws request) = inr body ->
  isRecording recorder = true ->
  stopRecording recorder = inr (Some audioBlob) ->
  size audioBlob <> 0%nat ->
  network w (chat_request API_BASE_URL audioBlob) = Resolves r ->
  ok r = true ->
  json r = inr body ->
  exists name upload transcript reply audio,
    uploaded request name upload
    /\ returns_text (network ws (stt_request cfg upload (hint name)))
         (lit "text") transcript
    /\ returns_text (network ws (llm_request cfg (JStr transcript)))
         (lit "response") reply
    /\ returns_bytes (network ws (tts_request cfg (JStr reply))) audio
    /\ fst (toggle recorder app s)
       = {| messages :=
              messages app
              ++ [{| Types.id := {| Types.prefix := lit "user";
                                    Types.stamp := now w (ticks s) |};
                     Types.type := Types.user;
                     Types.text := JStr transcript;
                     Types.timestamp := now w (S (ticks s));
                     Types.audioUrl := None |};
                  {| Types.id := {| Types.prefix := lit "agent";
                                    Types.stamp := now w (S (S (ticks s))) |};
                     Types.type := Types.agent;
                     Types.text := JStr reply;
                     Types.timestamp := now w (S (S (S (ticks s))));
                     Types.audioUrl :=
                       Some {| blob_bytes := audio;
                               blob_type := lit "audio/wav" |} |}];
            recordingState := Types.idle;
            error := None |}.
Proof.
  intros Hrun Hrec Hstop Hsize Hnet Hok Hjson.
  destruct (run_body_inv cfg ws request body Hrun)
    as (name & aud & t & rep & b & Hup & Hstt & _ & Hllm & Htts & -> & _).
  exists name, aud, t, rep, b.
  split; [exact Hup|]. split; [exact Hstt|]. split; [exact Hllm|].
  split; [exact Htts|].
  apply Nat.eqb_neq in Hsize.
  unfold handleToggleRecording. rewrite Hrec.
  unfold exchange, sendAudioMessage, fetch, Date_now, bind, await, throw, ret.
  rewrite Hstop, Hsize, Hnet, Hok. cbn [negb]. rewrite Hjson.
  change (member (lit "transcription") _) with (@inr JsError _ (JStr t)).
  change (member (lit "audioBase64") _)
    with (@inr JsError _ (JStr (Base64.encode b))).
  change (member (lit "response") _) with (@inr JsError _ (JStr rep)).
  cbn [to_string ticks]. rewrite base64ToAudioUrl_encode. reflexivity.
Qed.

End ClientFacts.

(* ===================================================================== *)
(** ** The recorder hook *)
(* ===================================================================== *)

Module HookFacts.
Import UseAudioRecorder.

(** Data events touch nothing but the list of chunks, to which the
    non-empty ones are added in order. *)
Lemma deliver_chunks (chunks : list Blob) (h : Hook) :
  deliver chunks h
  = {| isRecording := isRecording h; error := error h;
       analyserNode := analyserNode h;
       mediaRecorderRef := mediaRecorderRef h;
       audioChunksRef :=
         audioChunksRef h ++ filter (fun b => Nat.ltb 0 (size b)) chunks;
       streamRef := streamRef h; audioContextRef := audioContextRef h;
       live_streams := live_streams h; open_contexts := open_contexts h |}.
Proof.
  unfold deliver. revert h.
  induction chunks as [|c chunks IH]; intros h; cbn [fold_left filter].
  - rewrite app_nil_r. now destruct h.
  - rewrite IH. unfold ondataavailable.
    destruct (Nat.ltb 0 (size c)); cbn; [|reflexivity].
    now rewrite <- app_assoc.
Qed.

(** Leaving out the empty chunks changes no byte. *)
Lemma concat_nonempty (chunks : list Blob) :
  List.concat (map blob_bytes (filter (fun b => Nat.ltb 0 (size b)) chunks))
  = List.concat (map blob_bytes chunks).
Proof.
  induction chunks as [|c chunks IH]; [reflexivity|].
  cbn [filter map List.concat].
  destruct (Nat.ltb 0 (size c)) eqn:E.
  - cbn [map List.concat]. now rewrite IH.
  - apply Nat.ltb_ge in E. unfold size in E.
    destruct (blob_bytes c); [exact IH|simpl in E; lia].
Qed.

End HookFacts.

Section HookTheorems.
Import UseAudioRecorder.

Variable fault_message : EngineFault -> jsstring.

Lemma session_inv (during flushed : list Blob) (h : Hook) :
  exists h' audioBlob,
    session fault_message during flushed h = (h', Some audioBlob)
    /\ blob_bytes audioBlob
       = List.concat (map blob_bytes (during ++ flushed))
    /\ blob_type audioBlob = lit "audio/webm"
    /\ h' = {| isRecording := false; error := None; analyserNode := false;
               mediaRecorderRef := Some inactive; audioChunksRef := [];
               streamRef := false; audioContextRef := false;
               live_streams := live_streams h;
               open_contexts := open_contexts h |}
    /\ stopRecording h' = ResolvedNull h'.
Proof.
  unfold session, startRecording. rewrite HookFacts.deliver_chunks.
  cbn. rewrite HookFacts.deliver_chunks. cbn.
  do 2 eexists. split; [reflexivity|]. cbn.
  split; [|repeat split; reflexivity].
  rewrite <- filter_app. exact (HookFacts.concat_nonempty (during ++ flushed)).
Qed.

(** X18.  One recording, from a successful start to the [stop] event:
    the blob [stopRecording()] resolves with holds the bytes of all chunks
    delivered, in order (the empty ones the hook drops add nothing), with
    type ["audio/webm"]; afterwards the hook is not recording, holds no
    chunk, stream, audio context or analyser, as many streams and contexts
    are live as before the start, and a further [stopRecording()] resolves
    with [null] and changes nothing. *)
Theorem recording_session (during flushed : list Blob) (h : Hook) :
  exists h' audioBlob,
    session fault_message during flushed h = (h', Some audioBlob)
    /\ blob_bytes audioBlob
       = List.concat (map blob_bytes (during ++ flushed))
    /\ blob_type audioBlob = lit "audio/webm"
    /\ h' = {| isRecording := false; error := None; analyserNode := false;
               mediaRecorderRef := Some inactive; audioChunksRef := [];
               streamRef := false; audioContextRef := false;
               live_streams := live_streams h;
               open_contexts := open_contexts h |}
    /\ stopRecording h' = ResolvedNull h'.
Proof. exact (session_inv during flushed h). Qed.

End HookTheorems.

Lemma silent_blob (chunks : list Blob) :
  Forall (fun b => size b = 0%nat) chunks ->
  List.concat (map blob_bytes chunks) = [].
Proof.
  induction 1 as [|b chunks Hb _ IH]; [reflexivity|].
  cbn [map List.concat]. rewrite IH. unfold size in Hb.
  now destruct (blob_bytes b).
Qed.

(** X19.  The hook and the callback together: a recording all of whose
    chunks are empty is never uploaded; the callback shows
    ["No audio recorded"]. *)
Theorem silent_recording_is_not_uploaded
  (API_BASE_URL : jsstring) (w : World) (atob_message : jsstring)
  (fault_message : EngineFault -> jsstring)
  (number_to_string : Z -> jsstring)
  (during flushed : list Blob) (h : UseAudioRecorder.Hook)
  (start : M unit) (app : AppState) (s : State) :
  Forall (fun b => size b = 0%nat) (during ++ flushed) ->
  let recorder :=
    {| isRecording := true;
       startRecording := start;
       stopRecording :=
         inr (snd (UseAudioRecorder.session fault_message during flushed
                     h)) |} in
  calls (snd (handleToggleRecording API_BASE_URL w atob_message
                fault_message number_to_string recorder app s))
  = calls s
  /\ error (fst (handleToggleRecording API_BASE_URL w atob_message
                   fault_message number_to_string recorder app s))
     = Some (lit "No audio recorded").
Proof.
  intros Hsilent recorder.
  destruct (session_inv fault_message during flushed h)
    as (h' & audioBlob & Hsession & Hbytes & _).
  destruct (toggle_empty API_BASE_URL w atob_message
              fault_message number_to_string recorder app s eq_refl)
    as [Hcalls Hstate].
  - right. exists audioBlob. subst recorder. cbn [stopRecording].
    rewrite Hsession. split; [reflexivity|].
    unfold size. rewrite Hbytes, (silent_blob _ Hsilent). reflexivity.
  - split; [exact Hcalls|]. now rewrite Hstate.
Qed.

(* ===================================================================== *)
(** ** The model-pull script *)
(* ===================================================================== *)

Module PullModelFacts.
Import PullModel.

Lemma wait_gives_up (probe : nat -> bool) (fuel p : nat) :
  (p < MAX_RETRIES)%nat -> (MAX_RETRIES - p <= fuel)%nat ->
  (forall j, (p <= j < MAX_RETRIES)%nat -> probe j = false) ->
  wait_loop fuel probe p p p = Some (GaveUp MAX_RETRIES (pred MAX_RETRIES)).
Proof.
  unfold MAX_RETRIES. revert p.
  induction fuel as [|fuel IH]; intros p Hp Hfuel Hprobe; [lia|].
  cbn [wait_loop]. rewrite (Hprobe p) by lia. unfold MAX_RETRIES.
  destruct (Nat.leb_spec 30 (S p)).
  - assert (p = 29)%nat by lia. subst p. reflexivity.
  - apply IH; [lia|lia|]. intros j Hj. apply Hprobe. lia.
Qed.

Lemma wait_ready (probe : nat -> bool) (fuel p k : nat) :
  (p <= k < MAX_RETRIES)%nat -> (S (k - p) <= fuel)%nat ->
  (forall j, (p <= j < k)%nat -> probe j = false) ->
  probe k = true ->
  wait_loop fuel probe p p p = Some (Ready (S k) k).
Proof.
  unfold MAX_RETRIES. revert p.
  induction fuel as [|fuel IH]; intros p Hp Hfuel Hfalse Htrue; [lia|].
  cbn [wait_loop]. destruct (Nat.eq_dec p k) as [->|Hne].
  - now rewrite Htrue.
  - rewrite (Hfalse p) by lia. unfold MAX_RETRIES.
    destruct (Nat.leb_spec 30 (S p)); [lia|].
    apply IH; [lia|lia| |exact Htrue]. intros j Hj. apply Hfalse. lia.
Qed.

(** Among the first [n] probes, either none succeeds or there is a first
    one that does. *)
Lemma first_success (probe : nat -> bool) (n : nat) :
  (forall j, (j < n)%nat -> probe j = false)
  \/ (exists k, (k < n)%nat /\ probe k = true
                /\ forall j, (j < k)%nat -> probe j = false).
Proof.
  induction n as [|n [IH|(k & Hk & Ht & Hf)]].
  - left. intros j Hj. lia.
  - destruct (probe n) eqn:E.
    + right. exists n. repeat split; [lia|exact E|exact IH].
    + left. intros j Hj. destruct (Nat.eq_dec j n) as [->|]; [exact E|].
      apply IH. lia.
  - right. exists k. repeat split; [lia|exact Ht|exact Hf].
Qed.

End PullModelFacts.

Section PullModelTheorems.
Import PullModel.

Lemma wait_loop_cases (probe : nat -> bool) (fuel : nat) :
  (MAX_RETRIES <= fuel)%nat ->
  ((forall j, (j < MAX_RETRIES)%nat -> probe j = false) /\
   wait_loop fuel probe 0 0 0 = Some (GaveUp 30 29))
  \/ (exists k, (k < MAX_RETRIES)%nat /\ probe k = true
                /\ (forall j, (j < k)%nat -> probe j = false)
                /\ wait_loop fuel probe 0 0 0 = Some (Ready (S k) k)).
Proof.
  intros Hfuel.
  destruct (PullModelFacts.first_success probe MAX_RETRIES)
    as [Hnone|(k & Hk & Ht & Hf)].
  - left. split; [exact Hnone|].
    apply (PullModelFacts.wait_gives_up probe fuel 0).
    + unfold MAX_RETRIES. lia.
    + lia.
    + intros j Hj. apply Hnone. lia.
  - right. exists k. repeat split; try assumption.
    apply (PullModelFacts.wait_ready probe fuel 0 k).
    + lia.
    + unfold MAX_RETRIES in *. lia.
    + intros j Hj. apply Hf. lia.
    + exact Ht.
Qed.

(** X20.  The script's wait for the Ollama server ends after at most 30
    probes and 29 sleeps: it gives up exactly when the first 30 probes all
    fail, and when the first successful probe is the one numbered [k]
    (from 0) it goes on after [k + 1] probes and [k] sleeps. *)
Theorem wait_is_bounded (probe : nat -> bool) (fuel : nat) :
  (MAX_RETRIES <= fuel)%nat ->
  ((forall j, (j < MAX_RETRIES)%nat -> probe j = false) /\
   wait_loop fuel probe 0 0 0 = Some (GaveUp 30 29))
  \/ (exists k, (k < MAX_RETRIES)%nat /\ probe k = true
                /\ (forall j, (j < k)%nat -> probe j = false)
                /\ wait_loop fuel probe 0 0 0 = Some (Ready (S k) k)).
Proof. exact (wait_loop_cases probe fuel). Qed.

(** X21.  The pull script always ends.  It exits with 0 exactly when one
    of the first 30 probes succeeds and [ollama pull] succeeds; it stops
    the server it started exactly when it exits with 0; it pulls exactly
    when a probe succeeded; and the model it pulls is never the empty
    name. *)
Theorem script_outcome (arg1 : option jsstring) (probe : nat -> bool)
  (pull_status fuel : nat) :
  (MAX_RETRIES <= fuel)%nat ->
  exists f,
    script fuel arg1 probe pull_status = Some f
    /\ (exit_status f = 0%nat <->
        (exists k, (k < MAX_RETRIES)%nat /\ probe k = true)
        /\ pull_status = 0%nat)
    /\ (server_stopped f = true <-> exit_status f = 0%nat)
    /\ (pulled f <> None <->
        exists k, (k < MAX_RETRIES)%nat /\ probe k = true)
    /\ pulled f <> Some [].
Proof.
  intros Hfuel. unfold script.
  destruct (wait_loop_cases probe fuel Hfuel)
    as [[Hnone ->]|(k & Hk & Ht & Hf & ->)].
  - eexists. split; [reflexivity|]. cbn. repeat split; try discriminate.
    + intros [(k & Hk & Ht) _]. rewrite Hnone in Ht by exact Hk.
      discriminate.
    + congruence.
    + intros (k & Hk & Ht). rewrite Hnone in Ht by exact Hk. discriminate.
  - destruct pull_status as [|st]; eexists; (split; [reflexivity|]); cbn.
    + repeat split; try discriminate; eauto.
      destruct arg1 as [[|c s]|]; discriminate.
    + repeat split; try discriminate; eauto.
      * intros [_ H]. discriminate H.
      * destruct arg1 as [[|c s]|]; discriminate.
Qed.

End PullModelTheorems.

(* ===================================================================== *)
(** ** The properties above at the concrete scenario *)
(* ===================================================================== *)

Lemma llm_called_only_with_transcript_witness :
  exists name audio t,
    uploaded Scenario.recording name audio
    /\ returns_text
         (network Scenario.happy
            (stt_request Scenario.cfg audio (hint name))) (lit "text") t
    /\ blank t = false
    /\ llm_request Scenario.cfg (JStr (lit "hello there"))
       = llm_request Scenario.cfg (JStr t).
Proof.
  apply (llm_called_only_with_transcript Scenario.cfg Scenario.happy
           Scenario.recording
           (llm_request Scenario.cfg (JStr (lit "hello there")))).
  - vm_compute. right. left. reflexivity.
  - vm_compute. reflexivity.
Defined.

Lemma tts_called_only_with_reply_witness :
  exists t r,
    In (llm_request Scenario.cfg (JStr t))
      (calls (snd (run Scenario.cfg Scenario.happy Scenario.recording)))
    /\ returns_text
         (network Scenario.happy (llm_request Scenario.cfg (JStr t)))
         (lit "response") r
    /\ tts_request Scenario.cfg (JStr (lit "Hi! How can I help?"))
       = tts_request Scenario.cfg (JStr r).
Proof.
  apply (tts_called_only_with_reply Scenario.cfg Scenario.happy
           Scenario.recording
           (tts_request Scenario.cfg (JStr (lit "Hi! How can I help?")))).
  - vm_compute. right. right. left. reflexivity.
  - vm_compute. reflexivity.
Defined.

Lemma body_only_on_full_success_witness :
  exists name audio t r b,
    uploaded Scenario.recording name audio
    /\ returns_text
         (network Scenario.happy
            (stt_request Scenario.cfg audio (hint name))) (lit "text") t
    /\ blank t = false
    /\ returns_text
         (network Scenario.happy (llm_request Scenario.cfg (JStr t)))
         (lit "response") r
    /\ returns_bytes
         (network Scenario.happy (tts_request Scenario.cfg (JStr r))) b
    /\ ClientScenario.reply_body
       = JObj [(lit "transcription", JStr t);
               (lit "response", JStr r);
               (lit "audioBase64", JStr (Base64.encode b))]
    /\ statusCode (snd (run Scenario.cfg Scenario.happy Scenario.recording))
       = 200.
Proof.
  apply (body_only_on_full_success Scenario.cfg Scenario.happy
           Scenario.recording ClientScenario.reply_body).
  vm_compute. reflexivity.
Defined.

Lemma audio_url_rejects_illegal_text_witness :
  base64ToAudioUrl ClientScenario.atob_message (lit "a!b") None
  = inl (Thrown (lit "InvalidCharacterError") ClientScenario.atob_message).
Proof.
  apply (audio_url_rejects_illegal_text ClientScenario.atob_message
           (lit "a!b") 33%N None).
  - right. left. reflexivity.
  - reflexivity.
  - reflexivity.
  - discriminate.
Defined.

Lemma empty_recording_is_not_sent_witness :
  calls (snd (handleToggleRecording [] ClientScenario.online
                ClientScenario.atob_message ClientScenario.fault_message
                ClientScenario.number_to_string
                (ClientScenario.stopped_with None)
                ClientScenario.conversation init))
  = calls init
  /\ fst (handleToggleRecording [] ClientScenario.online
            ClientScenario.atob_message ClientScenario.fault_message
            ClientScenario.number_to_string
            (ClientScenario.stopped_with None)
            ClientScenario.conversation init)
     = {| messages := messages ClientScenario.conversation;
          recordingState := Types.idle;
          error := Some (lit "No audio recorded") |}.
Proof.
  apply (empty_recording_is_not_sent [] ClientScenario.online
           ClientScenario.atob_message ClientScenario.fault_message
           ClientScenario.number_to_string
           (ClientScenario.stopped_with None)
           ClientScenario.conversation init).
  - reflexivity.
  - left. reflexivity.
Defined.

Lemma server_error_is_shown_witness :
  error (fst (handleToggleRecording [] ClientScenario.failing
                ClientScenario.atob_message ClientScenario.fault_message
                ClientScenario.number_to_string
                (ClientScenario.stopped_with (Some ClientScenario.clip))
                ClientScenario.conversation init))
  = Some (lit "Failed to send message: STT service error: down").
Proof.
  destruct (server_error_is_shown [] ClientScenario.failing
              ClientScenario.atob_message ClientScenario.fault_message
              ClientScenario.number_to_string
              (ClientScenario.stopped_with (Some ClientScenario.clip))
              ClientScenario.conversation init ClientScenario.clip
              {| status := 500;
                 text := inr (lit "STT service error: down");
                 json := Scenario.unread;
                 arrayBuffer := Scenario.unread |}
              (lit "STT service error: down")) as [H _].
  - reflexivity.
  - reflexivity.
  - discriminate.
  - reflexivity.
  - reflexivity.
  - reflexivity.
  - rewrite H. reflexivity.
Defined.

Lemma exchange_end_to_end_witness :
  exists name upload transcript reply audio,
    uploaded Scenario.recording name upload
    /\ returns_text
         (network Scenario.happy
            (stt_request Scenario.cfg upload (hint name)))
         (lit "text") transcript
    /\ returns_text
         (network Scenario.happy
            (llm_request Scenario.cfg (JStr transcript)))
         (lit "response") reply
    /\ returns_bytes
         (network Scenario.happy (tts_request Scenario.cfg (JStr reply))) audio
    /\ fst (handleToggleRecording [] ClientScenario.online
              ClientScenario.atob_message ClientScenario.fault_message
              ClientScenario.number_to_string
              (ClientScenario.stopped_with (Some ClientScenario.clip))
              ClientScenario.conversation init)
       = {| messages :=
              messages ClientScenario.conversation
              ++ [{| Types.id := {| Types.prefix := lit "user";
                                    Types.stamp := 1000 |};
                     Types.type := Types.user;
                     Types.text := JStr transcript;
                     Types.timestamp := 1010;
                     Types.audioUrl := None |};
                  {| Types.id := {| Types.prefix := lit "agent";
                                    Types.stamp := 1020 |};
                     Types.type := Types.agent;
                     Types.text := JStr reply;
                     Types.timestamp := 1030;
                     Types.audioUrl :=
                       Some {| blob_bytes := audio;
                               blob_type := lit "audio/wav" |} |}];
            recordingState := Types.idle;
            error := None |}.
Proof.
  apply (exchange_end_to_end [] ClientScenario.online
           ClientScenario.atob_message ClientScenario.fault_message
           ClientScenario.number_to_string
           Scenario.cfg Scenario.happy Scenario.recording
           ClientScenario.reply_body
           (ClientScenario.stopped_with (Some ClientScenario.clip))
           ClientScenario.conversation init ClientScenario.clip
           {| status := 200; text := Scenario.unread;
              json := inr ClientScenario.reply_body;
              arrayBuffer := Scenario.unread |}).
  - vm_compute. reflexivity.
  - reflexivity.
  - reflexivity.
  - discriminate.
  - reflexivity.
  - reflexivity.
  - reflexivity.
Defined.

Lemma silent_recording_is_not_uploaded_witness :
  error (fst (handleToggleRecording [] ClientScenario.online
                ClientScenario.atob_message ClientScenario.fault_message
                ClientScenario.number_to_string
                {| isRecording := true;
                   startRecording := ret tt;
                   stopRecording :=
                     inr (snd (UseAudioRecorder.session
                                 ClientScenario.fault_message
                                 [ClientScenario.silent_chunk] []
                                 UseAudioRecorder.mounted)) |}
                ClientScenario.conversation init))
  = Some (lit "No audio recorded").
Proof.
  apply (silent_recording_is_not_uploaded [] ClientScenario.online
           ClientScenario.atob_message ClientScenario.fault_message
           ClientScenario.number_to_string
           [ClientScenario.silent_chunk] [] UseAudioRecorder.mounted
           (ret tt) ClientScenario.conversation init).
  repeat constructor.
Defined.

Lemma wait_is_bounded_witness :
  exists k,
    PullModel.wait_loop 30 ClientScenario.third_probe 0 0 0
    = Some (PullModel.Ready (S k) k).
Proof.
  destruct (wait_is_bounded ClientScenario.third_probe 30)
    as [[Hnone _]|(k & _ & _ & _ & H)].
  - unfold PullModel.MAX_RETRIES. lia.
  - specialize (Hnone 2%nat). unfold PullModel.MAX_RETRIES in Hnone.
    discriminate Hnone. lia.
  - exists k. exact H.
Defined.

Lemma script_outcome_witness :
  exists f,
    PullModel.script 30 None ClientScenario.third_probe 0 = Some f
    /\ PullModel.exit_status f = 0%nat.
Proof.
  destruct (script_outcome None ClientScenario.third_probe 0 30)
    as (f & Hf & Hexit & _).
  - unfold PullModel.MAX_RETRIES. lia.
  - exists f. split; [exact Hf|]. apply Hexit. split; [|reflexivity].
    exists 2%nat. split; [unfold PullModel.MAX_RETRIES; lia|reflexivity].
Defined.
